(** * EKS waiters: a shallow embedding of [aws/internal/service/eks/waiter/waiter.go]

    The file embeds the eleven waiter functions of the package together with
    the polling engine they call, and states the properties of the
    specification over them. *)

From Stdlib Require Import String Ascii List Bool Arith ZArith Lia DecimalString.
Import ListNotations.
Local Open Scope string_scope.
Set Warnings "-register-all".

(** ** Go values used by the package *)

(** [time.Duration]: a signed count of nanoseconds. *)
Definition Duration := Z.

Definition Second : Duration := 1000000000%Z.
Definition Minute : Duration := (60 * Second)%Z.

Definition EksAddonCreatedTimeout : Duration := (20 * Minute)%Z.
Definition EksAddonUpdatedTimeout : Duration := (20 * Minute)%Z.
Definition EksAddonDeletedTimeout : Duration := (40 * Minute)%Z.

(** A [*string] field of an SDK structure. *)
Definition StringPtr := option string.

(** [aws.StringValue]: the pointed string, or the empty string for nil. *)
Definition StringValue (p : StringPtr) : string :=
  match p with
  | Some s => s
  | None => ""
  end.

(** Modelled from the spec: the status constants belong to the [eks] package
    of the AWS SDK, which is not part of the source at hand.  Their values are
    the status strings of the service: section 4.1 cites Cancelled, Failed and
    Successful, and the comments of the waiters cite ACTIVE, CREATE_FAILED,
    Successful and ResourceNotFoundException. *)
Module eks.
Definition ClusterStatusCreating := "CREATING".
Definition ClusterStatusActive := "ACTIVE".
Definition ClusterStatusDeleting := "DELETING".
Definition UpdateStatusInProgress := "InProgress".
Definition UpdateStatusFailed := "Failed".
Definition UpdateStatusCancelled := "Cancelled".
Definition UpdateStatusSuccessful := "Successful".
Definition FargateProfileStatusCreating := "CREATING".
Definition FargateProfileStatusActive := "ACTIVE".
Definition FargateProfileStatusDeleting := "DELETING".
Definition NodegroupStatusCreating := "CREATING".
Definition NodegroupStatusActive := "ACTIVE".
Definition NodegroupStatusDeleting := "DELETING".
Definition AddonStatusCreating := "CREATING".
Definition AddonStatusActive := "ACTIVE".
Definition AddonStatusCreateFailed := "CREATE_FAILED".
Definition AddonStatusDeleting := "DELETING".
Definition ErrCodeResourceNotFoundException := "ResourceNotFoundException".
End eks.

(** *** Resource snapshots.  Only the fields the waiters read are kept, plus a
    name that tells snapshots apart. *)
Record Cluster := { ClusterName : StringPtr; ClusterStatus_ : StringPtr }.
Record FargateProfile := { FargateProfileName : StringPtr; FargateProfileStatus_ : StringPtr }.
Record Nodegroup := { NodegroupName : StringPtr; NodegroupStatus_ : StringPtr }.

Record ErrorDetail := { ErrorCode : StringPtr; ErrorMessage : StringPtr }.

(** [eks.Update]: [Errors] is a slice of pointers, each of which may be nil. *)
Record Update := {
  UpdateId : StringPtr;
  UpdateStatus : StringPtr;
  UpdateErrors : list (option ErrorDetail)
}.

Record AddonIssue := { IssueCode : StringPtr; IssueMessage : StringPtr }.

(** [eks.AddonHealth]: [Issues] is a slice of pointers. *)
Record AddonHealth := { Issues : list (option AddonIssue) }.

(** [eks.Addon]: [Health] is a pointer and may be nil. *)
Record Addon := {
  AddonName : StringPtr;
  AddonStatus : StringPtr;
  Health : option AddonHealth
}.

(** *** [interface{}]: a dynamically typed value.  A pointer stored in an
    interface keeps its type even when it is nil, so every typed case carries
    an optional pointee. *)
Inductive any :=
| AnyNil
| AnyCluster (p : option Cluster)
| AnyFargateProfile (p : option FargateProfile)
| AnyNodegroup (p : option Nodegroup)
| AnyUpdate (p : option Update)
| AnyAddon (p : option Addon)
| AnyOther (typeName : string).

(** *** [error] values.  [TimeoutError] and [UnexpectedStateError] are the
    engine's errors, with the [LastError] field that [SetLastError] fills in;
    [AwsError] is a service error with its code; [ErrorString] is what
    [fmt.Errorf] builds; [MultiError] is a [multierror.Error]. *)
Inductive error :=
| AwsError (code message : string)
| ErrorString (s : string)
| MultiError (errs : list error)
| TimeoutError (LastState : string) (LastError : option error)
| UnexpectedStateError (State : string) (LastError : option error)
| Canceled.

(** What a Go function whose results are a pointer and an [error] does: it
    returns, or it panics on a nil dereference. *)
Inductive outcome (T : Type) :=
| Returned (v : option T) (err : option error)
| Panicked.
Arguments Returned {T} v err.
Arguments Panicked {T}.

(** ** Strings and formatting *)

Definition newline : string := String (ascii_of_nat 10) EmptyString.
Definition tab : string := String (ascii_of_nat 9) EmptyString.

(** [strings.Join]. *)
Definition Join (elems : list string) (sep : string) : string :=
  String.concat sep elems.

(** The verb [%d] on a non-negative [int]. *)
Definition itoa (n : nat) : string := NilEmpty.string_of_uint (Nat.to_uint n).

(** [strings.HasPrefix] and [strings.Contains], used to state what a message
    holds. *)
Fixpoint HasPrefix (s p : string) : bool :=
  match p, s with
  | EmptyString, _ => true
  | String _ _, EmptyString => false
  | String b p', String a s' => Ascii.eqb a b && HasPrefix s' p'
  end.

Fixpoint Contains (s sub : string) : bool :=
  HasPrefix s sub ||
  match s with
  | EmptyString => false
  | String _ s' => Contains s' sub
  end.

(** [Index s sub]: the position of the first occurrence of [sub] in [s]. *)
Fixpoint Index (s sub : string) : option nat :=
  if HasPrefix s sub then Some 0
  else match s with
       | EmptyString => None
       | String _ s' => option_map S (Index s' sub)
       end.

(** Membership of a state in a [[]string]. *)
Definition inStates (s : string) (l : list string) : bool :=
  existsb (String.eqb s) l.

(** ** Errors *)

(** [multierror.Error.ErrorOrNil]: nil for an empty aggregate. *)
Definition ErrorOrNil (errs : list error) : option error :=
  match errs with
  | [] => None
  | _ => Some (MultiError errs)
  end.

(** The [Error] method.  Service errors print as [code: message]; the
    aggregate prints with the list format of the multierror package.  The
    two errors of the engine belong to the plugin SDK, like the engine: they
    are rendered here with the state they carry, followed by their last
    error. *)
Fixpoint Error_ (e : error) : string :=
  match e with
  | AwsError code message => code ++ ": " ++ message
  | ErrorString s => s
  | MultiError errs =>
      match errs with
      | [_] => "1 error occurred:" ++ newline ++ tab ++
               Join (map (fun e' => "* " ++ Error_ e') errs) (newline ++ tab) ++
               newline ++ newline
      | _ => itoa (length errs) ++ " errors occurred:" ++ newline ++ tab ++
             Join (map (fun e' => "* " ++ Error_ e') errs) (newline ++ tab) ++
             newline ++ newline
      end
  | TimeoutError LastState LastError =>
      "timeout while waiting (last state: '" ++ LastState ++ "')" ++
      match LastError with
      | Some e' => ": " ++ Error_ e'
      | None => ""
      end
  | UnexpectedStateError State LastError =>
      "unexpected state '" ++ State ++ "'. last error: " ++
      match LastError with
      | Some e' => Error_ e'
      | None => "%!s(<nil>)"
      end
  | Canceled => "context canceled"
  end.

(** [fmt.Errorf] with verbs [%s] only: the arguments are already strings. *)
Definition Errorf (s : string) : error := ErrorString s.

(** [tfawserr.ErrCodeEquals]: looks with [errors.As] for a service error
    along the chain of wrapped errors and compares its code.  The engine's
    errors unwrap to their last error and an aggregate unwraps to each of the
    errors it holds; an error built by [fmt.Errorf] with [%s] wraps nothing. *)
Fixpoint ErrCodeEquals (err : error) (code : string) : bool :=
  match err with
  | AwsError c _ => String.eqb c code
  | MultiError errs => existsb (fun e' => ErrCodeEquals e' code) errs
  | TimeoutError _ (Some e') => ErrCodeEquals e' code
  | UnexpectedStateError _ (Some e') => ErrCodeEquals e' code
  | _ => false
  end.

(** Modelled from the spec: [tfresource.SetLastError] is declared in another
    package of the repository.  Section 3 has the classified error carry the
    sub-errors extracted from the payload: the call stores [lastErr] in the
    [LastError] field of an engine error whose field is still nil, and leaves
    every other error as it is.  The function writes through the pointer held
    by [err]; since the waiters return that same pointer, the value given
    back here is the content the returned error points to. *)
Definition SetLastError (err : option error) (lastErr : option error) : option error :=
  match err with
  | Some (TimeoutError s None) => Some (TimeoutError s lastErr)
  | Some (UnexpectedStateError s None) => Some (UnexpectedStateError s lastErr)
  | _ => err
  end.

(** ** The engine's interface *)

(** [resource.StateRefreshFunc]: a probe.  It is a closure over the remote
    service, so successive calls may answer differently: the function gives
    the answer of the call number [n], counted from zero. *)
Definition StateRefreshFunc := nat -> any * string * option error.

(** [resource.StateChangeConf], with the fields the waiters set. *)
Record StateChangeConf := {
  Pending : list string;
  Target : list string;
  Refresh : StateRefreshFunc;
  Timeout : Duration
}.

(** [context.Context], seen as its cancellation signal: [ctx k] tells whether
    the signal is set when the engine looks at it for the [k]-th time. *)
Definition Context := nat -> bool.

(** [context.Background()]: never cancelled. *)
Definition Background : Context := fun _ => false.

(** The remote service behind [*eks.EKS]: one scripted probe per lookup. *)
Inductive Describe :=
| DescribeCluster (name : string)
| DescribeClusterUpdate (name id : string)
| DescribeFargateProfile (clusterName fargateProfileName : string)
| DescribeNodegroup (clusterName nodeGroupName : string)
| DescribeNodegroupUpdate (clusterName nodeGroupName id : string)
| DescribeAddon (clusterName addonName : string)
| DescribeAddonUpdate (clusterName addonName updateID : string).

Definition EKS := Describe -> StateRefreshFunc.

(** Modelled from the spec: the status probes of [status.go] are not part of
    the source at hand.  Section 6 gives their interface, a zero-argument
    callable returning object, state and error, and section 2 says that each
    wraps one external status lookup. *)
Definition ClusterStatus (conn : EKS) (name : string) : StateRefreshFunc :=
  conn (DescribeCluster name).
Definition ClusterUpdateStatus (conn : EKS) (name id : string) : StateRefreshFunc :=
  conn (DescribeClusterUpdate name id).
Definition FargateProfileStatus (conn : EKS) (clusterName fargateProfileName : string)
  : StateRefreshFunc :=
  conn (DescribeFargateProfile clusterName fargateProfileName).
Definition NodegroupStatus (conn : EKS) (clusterName nodeGroupName : string)
  : StateRefreshFunc :=
  conn (DescribeNodegroup clusterName nodeGroupName).
Definition NodegroupUpdateStatus (conn : EKS) (clusterName nodeGroupName id : string)
  : StateRefreshFunc :=
  conn (DescribeNodegroupUpdate clusterName nodeGroupName id).
Definition EksAddonStatus (ctx : Context) (conn : EKS) (addonName clusterName : string)
  : StateRefreshFunc :=
  conn (DescribeAddon clusterName addonName).
Definition EksAddonUpdateStatus (ctx : Context) (conn : EKS)
  (clusterName addonName updateID : string) : StateRefreshFunc :=
  conn (DescribeAddonUpdate clusterName addonName updateID).

(** ** The loops of the waiters *)

(** [for _, e := range output.Errors { errs = multierror.Append(errs, ...) }]:
    [None] when the loop dereferences a nil entry. *)
Fixpoint appendUpdateErrors (errs : list error) (l : list (option ErrorDetail))
  : option (list error) :=
  match l with
  | [] => Some errs
  | None :: _ => None
  | Some e :: rest =>
      appendUpdateErrors
        (errs ++ [Errorf (StringValue e.(ErrorCode) ++ ": " ++ StringValue e.(ErrorMessage))])
        rest
  end.

(** The line both add-on waiters format for the entry of index [i]. *)
Definition detailedError (i : nat) (code message : StringPtr) : string :=
  "Error " ++ itoa (i + 1) ++ ": Code: " ++ StringValue code ++
  " / Message: " ++ StringValue message.

(** [for i, addonIssue := range addon.Health.Issues { detailedErrors = append(...) }]. *)
Fixpoint appendAddonIssues (detailedErrors : list string) (i : nat)
  (l : list (option AddonIssue)) : option (list string) :=
  match l with
  | [] => Some detailedErrors
  | None :: _ => None
  | Some addonIssue :: rest =>
      appendAddonIssues
        (detailedErrors ++ [detailedError i addonIssue.(IssueCode) addonIssue.(IssueMessage)])
        (S i) rest
  end.

(** [for i, updateError := range update.Errors { detailedErrors = append(...) }]. *)
Fixpoint appendDetailedUpdateErrors (detailedErrors : list string) (i : nat)
  (l : list (option ErrorDetail)) : option (list string) :=
  match l with
  | [] => Some detailedErrors
  | None :: _ => None
  | Some updateError :: rest =>
      appendDetailedUpdateErrors
        (detailedErrors ++ [detailedError i updateError.(ErrorCode) updateError.(ErrorMessage)])
        (S i) rest
  end.

(** ** The configurations the waiters build *)

Definition stateConf_ClusterCreated (conn : EKS) (name : string) (timeout : Duration) :=
  {| Pending := [eks.ClusterStatusCreating];
     Target := [eks.ClusterStatusActive];
     Refresh := ClusterStatus conn name;
     Timeout := timeout |}.

Definition stateConf_ClusterDeleted (conn : EKS) (name : string) (timeout : Duration) :=
  {| Pending := [eks.ClusterStatusActive; eks.ClusterStatusDeleting];
     Target := [];
     Refresh := ClusterStatus conn name;
     Timeout := timeout |}.

Definition stateConf_ClusterUpdateSuccessful (conn : EKS) (name id : string)
  (timeout : Duration) :=
  {| Pending := [eks.UpdateStatusInProgress];
     Target := [eks.UpdateStatusSuccessful];
     Refresh := ClusterUpdateStatus conn name id;
     Timeout := timeout |}.

Definition stateConf_FargateProfileCreated (conn : EKS)
  (clusterName fargateProfileName : string) (timeout : Duration) :=
  {| Pending := [eks.FargateProfileStatusCreating];
     Target := [eks.FargateProfileStatusActive];
     Refresh := FargateProfileStatus conn clusterName fargateProfileName;
     Timeout := timeout |}.

Definition stateConf_FargateProfileDeleted (conn : EKS)
  (clusterName fargateProfileName : string) (timeout : Duration) :=
  {| Pending := [eks.FargateProfileStatusActive; eks.FargateProfileStatusDeleting];
     Target := [];
     Refresh := FargateProfileStatus conn clusterName fargateProfileName;
     Timeout := timeout |}.

Definition stateConf_NodegroupCreated (conn : EKS)
  (clusterName nodeGroupName : string) (timeout : Duration) :=
  {| Pending := [eks.NodegroupStatusCreating];
     Target := [eks.NodegroupStatusActive];
     Refresh := NodegroupStatus conn clusterName nodeGroupName;
     Timeout := timeout |}.

Definition stateConf_NodegroupDeleted (conn : EKS)
  (clusterName nodeGroupName : string) (timeout : Duration) :=
  {| Pending := [eks.NodegroupStatusActive; eks.NodegroupStatusDeleting];
     Target := [];
     Refresh := NodegroupStatus conn clusterName nodeGroupName;
     Timeout := timeout |}.

Definition stateConf_NodegroupUpdateSuccessful (conn : EKS)
  (clusterName nodeGroupName id : string) (timeout : Duration) :=
  {| Pending := [eks.UpdateStatusInProgress];
     Target := [eks.UpdateStatusSuccessful];
     Refresh := NodegroupUpdateStatus conn clusterName nodeGroupName id;
     Timeout := timeout |}.

Definition stateConf_EksAddonCreated (ctx : Context) (conn : EKS)
  (clusterName addonName : string) :=
  {| Pending := [eks.AddonStatusCreating];
     Target := [eks.AddonStatusActive; eks.AddonStatusCreateFailed];
     Refresh := EksAddonStatus ctx conn addonName clusterName;
     Timeout := EksAddonCreatedTimeout |}.

Definition stateConf_EksAddonDeleted (ctx : Context) (conn : EKS)
  (clusterName addonName : string) :=
  {| Pending := [eks.AddonStatusActive; eks.AddonStatusDeleting];
     Target := [];
     Refresh := EksAddonStatus ctx conn addonName clusterName;
     Timeout := EksAddonDeletedTimeout |}.

Definition stateConf_EksAddonUpdateSuccessful (ctx : Context) (conn : EKS)
  (clusterName addonName updateID : string) :=
  {| Pending := [eks.UpdateStatusInProgress];
     Target := [eks.UpdateStatusCancelled; eks.UpdateStatusFailed;
                eks.UpdateStatusSuccessful];
     Refresh := EksAddonUpdateStatus ctx conn clusterName addonName updateID;
     Timeout := EksAddonUpdatedTimeout |}.

(** ** The waiters *)

(** [StateChangeConf.WaitForStateContext]: the polling engine, which gives
    back the last object and an error. *)
Definition Engine := Context -> StateChangeConf -> any * option error.

Section Waiters.

Variable WaitForStateContext : Engine.

(** [WaitForState] takes no context: the wait runs under the background
    context. *)
Definition WaitForState (conf : StateChangeConf) : any * option error :=
  WaitForStateContext Background conf.

Definition ClusterCreated (conn : EKS) (name : string) (timeout : Duration)
  : outcome Cluster :=
  let stateConf := stateConf_ClusterCreated conn name timeout in
  let '(outputRaw, err) := WaitForState stateConf in
  match outputRaw with
  | AnyCluster output => Returned output err
  | _ => Returned None err
  end.

Definition ClusterDeleted (conn : EKS) (name : string) (timeout : Duration)
  : outcome Cluster :=
  let stateConf := stateConf_ClusterDeleted conn name timeout in
  let '(outputRaw, err) := WaitForState stateConf in
  match outputRaw with
  | AnyCluster output => Returned output err
  | _ => Returned None err
  end.

(** The body shared, to the letter, by [ClusterUpdateSuccessful] and
    [NodegroupUpdateSuccessful] after the wait. *)
Definition updateOutcome (outputRaw : any) (err : option error) : outcome Update :=
  match outputRaw with
  | AnyUpdate None => Panicked
  | AnyUpdate (Some output) =>
      let status := StringValue output.(UpdateStatus) in
      if String.eqb status eks.UpdateStatusCancelled
         || String.eqb status eks.UpdateStatusFailed
      then
        match appendUpdateErrors [] output.(UpdateErrors) with
        | None => Panicked
        | Some errs => Returned (Some output) (SetLastError err (ErrorOrNil errs))
        end
      else Returned (Some output) err
  | _ => Returned None err
  end.

Definition ClusterUpdateSuccessful (conn : EKS) (name id : string)
  (timeout : Duration) : outcome Update :=
  let stateConf := stateConf_ClusterUpdateSuccessful conn name id timeout in
  let '(outputRaw, err) := WaitForState stateConf in
  updateOutcome outputRaw err.

Definition FargateProfileCreated (conn : EKS)
  (clusterName fargateProfileName : string) (timeout : Duration)
  : outcome FargateProfile :=
  let stateConf := stateConf_FargateProfileCreated conn clusterName fargateProfileName timeout in
  let '(outputRaw, err) := WaitForState stateConf in
  match outputRaw with
  | AnyFargateProfile output => Returned output err
  | _ => Returned None err
  end.

Definition FargateProfileDeleted (conn : EKS)
  (clusterName fargateProfileName : string) (timeout : Duration)
  : outcome FargateProfile :=
  let stateConf := stateConf_FargateProfileDeleted conn clusterName fargateProfileName timeout in
  let '(outputRaw, err) := WaitForState stateConf in
  match outputRaw with
  | AnyFargateProfile output => Returned output err
  | _ => Returned None err
  end.

Definition NodegroupCreated (conn : EKS) (clusterName nodeGroupName : string)
  (timeout : Duration) : outcome Nodegroup :=
  let stateConf := stateConf_NodegroupCreated conn clusterName nodeGroupName timeout in
  let '(outputRaw, err) := WaitForState stateConf in
  match outputRaw with
  | AnyNodegroup output => Returned output err
  | _ => Returned None err
  end.

Definition NodegroupDeleted (conn : EKS) (clusterName nodeGroupName : string)
  (timeout : Duration) : outcome Nodegroup :=
  let stateConf := stateConf_NodegroupDeleted conn clusterName nodeGroupName timeout in
  let '(outputRaw, err) := WaitForState stateConf in
  match outputRaw with
  | AnyNodegroup output => Returned output err
  | _ => Returned None err
  end.

Definition NodegroupUpdateSuccessful (conn : EKS)
  (clusterName nodeGroupName id : string) (timeout : Duration) : outcome Update :=
  let stateConf := stateConf_NodegroupUpdateSuccessful conn clusterName nodeGroupName id timeout in
  let '(outputRaw, err) := WaitForState stateConf in
  updateOutcome outputRaw err.

(** [EksAddonCreated] waits for a EKS add-on to return status ACTIVE or
    CREATE_FAILED. *)
Definition EksAddonCreated (ctx : Context) (conn : EKS)
  (clusterName addonName : string) : outcome Addon :=
  let stateConf := stateConf_EksAddonCreated ctx conn clusterName addonName in
  let '(outputRaw, err) := WaitForStateContext ctx stateConf in
  match outputRaw with
  | AnyAddon None => Panicked
  | AnyAddon (Some addon) =>
      if String.eqb (StringValue addon.(AddonStatus)) eks.AddonStatusCreateFailed
      then
        match addon.(Health) with
        | None => Panicked
        | Some health =>
            match appendAddonIssues [] 0 health.(Issues) with
            | None => Panicked
            | Some detailedErrors =>
                Returned (Some addon)
                  (Some (Errorf ("creation not successful (" ++
                                 StringValue addon.(AddonStatus) ++ "): Errors:" ++
                                 newline ++ Join detailedErrors newline)))
            end
        end
      else Returned (Some addon) err
  | _ => Returned None err
  end.

(** [EksAddonDeleted] waits for a EKS add-on to be deleted. *)
Definition EksAddonDeleted (ctx : Context) (conn : EKS)
  (clusterName addonName : string) : outcome Addon :=
  let stateConf := stateConf_EksAddonDeleted ctx conn clusterName addonName in
  let '(outputRaw, err) := WaitForStateContext ctx stateConf in
  if match err with
     | Some e => ErrCodeEquals e eks.ErrCodeResourceNotFoundException
     | None => false
     end
  then Returned None None
  else
    match outputRaw with
    | AnyAddon v => Returned v err
    | _ => Returned None err
    end.

(** [EksAddonUpdateSuccessful] waits for a EKS add-on update to return
    Successful. *)
Definition EksAddonUpdateSuccessful (ctx : Context) (conn : EKS)
  (clusterName addonName updateID : string) : outcome Update :=
  let stateConf := stateConf_EksAddonUpdateSuccessful ctx conn clusterName addonName updateID in
  let '(outputRaw, err) := WaitForStateContext ctx stateConf in
  match err with
  | Some _ => Returned None err
  | None =>
      match outputRaw with
      | AnyUpdate None => Panicked
      | AnyUpdate (Some update) =>
          if String.eqb (StringValue update.(UpdateStatus)) eks.UpdateStatusSuccessful
          then Returned None None
          else
            match appendDetailedUpdateErrors [] 0 update.(UpdateErrors) with
            | None => Panicked
            | Some detailedErrors =>
                Returned (Some update)
                  (Some (Errorf ("EKS add-on (" ++ clusterName ++ ":" ++ addonName ++
                                 ") update (" ++ updateID ++ ") not successful (" ++
                                 StringValue update.(UpdateStatus) ++ "): Errors:" ++
                                 newline ++ Join detailedErrors newline)))
            end
      | _ => Returned None err
      end
  end.

End Waiters.

(** ** The polling engine *)

(** The policy hook that tells a not-found answer of the service. *)
Definition isNotFound (e : error) : bool :=
  ErrCodeEquals e eks.ErrCodeResourceNotFoundException.

(** How many probes fit before the deadline when one probe is issued every
    [interval], the first one at once: none when the deadline is already
    behind. *)
Definition pollSlots (interval timeout : Duration) : nat :=
  if (timeout <? 0)%Z then 0
  else S (Z.to_nat (timeout / Z.max 1 interval)).

(** Modelled from the spec: the engine is the [resource] package of the
    plugin SDK and is not part of the source at hand.  The loop follows
    section 4.1 step by step, with the cancellation check of section 5 at the
    head of every iteration, which is also the end of the previous sleep:
    [slots] counts the probes left before the deadline, [k] the probes issued
    so far, [last] and [lastState] keep the most recent answer.  The result is
    the object, the error, and the number of probes issued. *)
Fixpoint poll (conf : StateChangeConf) (ctx : Context) (slots k : nat)
  (last : any) (lastState : string) : any * option error * nat :=
  if ctx k then (AnyNil, Some Canceled, k)
  else
    match slots with
    | 0 => (last, Some (TimeoutError lastState None), k)
    | S slots' =>
        let '(object, state, probeErr) := conf.(Refresh) k in
        match probeErr with
        | Some e =>
            if isNotFound e && Nat.eqb (length conf.(Target)) 0
            then (AnyNil, None, S k)
            else (AnyNil, Some e, S k)
        | None =>
            if inStates state conf.(Target)
               || (Nat.eqb (length conf.(Target)) 0 && negb (inStates state conf.(Pending)))
            then (object, None, S k)
            else if inStates state conf.(Pending)
            then poll conf ctx slots' (S k) object state
            else (object, Some (UnexpectedStateError state None), S k)
        end
    end.

Definition waitProbes (interval : Duration) (ctx : Context) (conf : StateChangeConf)
  : any * option error * nat :=
  poll conf ctx (pollSlots interval conf.(Timeout)) 0 AnyNil "".

Definition wait (interval : Duration) : Engine :=
  fun ctx conf => fst (waitProbes interval ctx conf).

(** ** One name for each waiter *)

Inductive Waiter :=
| WClusterCreated | WClusterDeleted | WClusterUpdateSuccessful
| WFargateProfileCreated | WFargateProfileDeleted
| WNodegroupCreated | WNodegroupDeleted | WNodegroupUpdateSuccessful
| WEksAddonCreated | WEksAddonDeleted | WEksAddonUpdateSuccessful.

Definition allWaiters : list Waiter :=
  [WClusterCreated; WClusterDeleted; WClusterUpdateSuccessful;
   WFargateProfileCreated; WFargateProfileDeleted;
   WNodegroupCreated; WNodegroupDeleted; WNodegroupUpdateSuccessful;
   WEksAddonCreated; WEksAddonDeleted; WEksAddonUpdateSuccessful].

(** The arguments of a call: [name] is the cluster name for the cluster
    waiters and the resource name within [clusterName] for the others. *)
Record Args := {
  clusterName : string;
  name : string;
  id : string;
  timeout : Duration
}.

(** The configuration a waiter hands to the engine. *)
Definition stateConfOf (w : Waiter) (ctx : Context) (conn : EKS) (a : Args)
  : StateChangeConf :=
  match w with
  | WClusterCreated => stateConf_ClusterCreated conn a.(name) a.(timeout)
  | WClusterDeleted => stateConf_ClusterDeleted conn a.(name) a.(timeout)
  | WClusterUpdateSuccessful =>
      stateConf_ClusterUpdateSuccessful conn a.(name) a.(id) a.(timeout)
  | WFargateProfileCreated =>
      stateConf_FargateProfileCreated conn a.(clusterName) a.(name) a.(timeout)
  | WFargateProfileDeleted =>
      stateConf_FargateProfileDeleted conn a.(clusterName) a.(name) a.(timeout)
  | WNodegroupCreated =>
      stateConf_NodegroupCreated conn a.(clusterName) a.(name) a.(timeout)
  | WNodegroupDeleted =>
      stateConf_NodegroupDeleted conn a.(clusterName) a.(name) a.(timeout)
  | WNodegroupUpdateSuccessful =>
      stateConf_NodegroupUpdateSuccessful conn a.(clusterName) a.(name) a.(id) a.(timeout)
  | WEksAddonCreated => stateConf_EksAddonCreated ctx conn a.(clusterName) a.(name)
  | WEksAddonDeleted => stateConf_EksAddonDeleted ctx conn a.(clusterName) a.(name)
  | WEksAddonUpdateSuccessful =>
      stateConf_EksAddonUpdateSuccessful ctx conn a.(clusterName) a.(name) a.(id)
  end.

(** The results of the waiters under one type: the pointer is put back into
    an interface value, where a nil pointer keeps its type. *)
Inductive result :=
| Ret (object : any) (err : option error)
| Panic.

Definition box {T : Type} (inj : option T -> any) (o : outcome T) : result :=
  match o with
  | Returned v err => Ret (inj v) err
  | Panicked => Panic
  end.

(** A call of the waiter [w].  The context reaches the three add-on waiters
    only: the other eight have no context parameter. *)
Definition callWaiter (E : Engine) (w : Waiter) (ctx : Context) (conn : EKS)
  (a : Args) : result :=
  match w with
  | WClusterCreated => box AnyCluster (ClusterCreated E conn a.(name) a.(timeout))
  | WClusterDeleted => box AnyCluster (ClusterDeleted E conn a.(name) a.(timeout))
  | WClusterUpdateSuccessful =>
      box AnyUpdate (ClusterUpdateSuccessful E conn a.(name) a.(id) a.(timeout))
  | WFargateProfileCreated =>
      box AnyFargateProfile (FargateProfileCreated E conn a.(clusterName) a.(name) a.(timeout))
  | WFargateProfileDeleted =>
      box AnyFargateProfile (FargateProfileDeleted E conn a.(clusterName) a.(name) a.(timeout))
  | WNodegroupCreated =>
      box AnyNodegroup (NodegroupCreated E conn a.(clusterName) a.(name) a.(timeout))
  | WNodegroupDeleted =>
      box AnyNodegroup (NodegroupDeleted E conn a.(clusterName) a.(name) a.(timeout))
  | WNodegroupUpdateSuccessful =>
      box AnyUpdate
        (NodegroupUpdateSuccessful E conn a.(clusterName) a.(name) a.(id) a.(timeout))
  | WEksAddonCreated => box AnyAddon (EksAddonCreated E ctx conn a.(clusterName) a.(name))
  | WEksAddonDeleted => box AnyAddon (EksAddonDeleted E ctx conn a.(clusterName) a.(name))
  | WEksAddonUpdateSuccessful =>
      box AnyUpdate
        (EksAddonUpdateSuccessful E ctx conn a.(clusterName) a.(name) a.(id))
  end.

(** The context under which the engine runs for each waiter. *)
Definition contextOf (w : Waiter) (ctx : Context) : Context :=
  match w with
  | WEksAddonCreated | WEksAddonDeleted | WEksAddonUpdateSuccessful => ctx
  | _ => Background
  end.

(** A service that knows no resource, and an engine that has already run:
    together they expose the part of a waiter that follows the wait. *)
Definition noService : EKS := fun _ _ => (AnyNil, "", None).

Definition finished (outputRaw : any) (err : option error) : Engine :=
  fun _ _ => (outputRaw, err).

(** What the waiter [w] makes of the engine's answer [(outputRaw, err)]. *)
Definition afterWait (w : Waiter) (a : Args) (outputRaw : any) (err : option error)
  : result :=
  callWaiter (finished outputRaw err) w Background noService a.

(** The interface type of the pointer a waiter returns. *)
Definition hasTypeOf (w : Waiter) (v : any) : bool :=
  match w, v with
  | (WClusterCreated | WClusterDeleted), AnyCluster _ => true
  | (WFargateProfileCreated | WFargateProfileDeleted), AnyFargateProfile _ => true
  | (WNodegroupCreated | WNodegroupDeleted), AnyNodegroup _ => true
  | (WClusterUpdateSuccessful | WNodegroupUpdateSuccessful | WEksAddonUpdateSuccessful),
    AnyUpdate _ => true
  | (WEksAddonCreated | WEksAddonDeleted), AnyAddon _ => true
  | _, _ => false
  end.

(** A nil pointer, typed or not. *)
Definition isNil (v : any) : bool :=
  match v with
  | AnyNil | AnyCluster None | AnyFargateProfile None | AnyNodegroup None
  | AnyUpdate None | AnyAddon None => true
  | _ => false
  end.

(** The status field of a snapshot. *)
Definition statusOf (v : any) : string :=
  match v with
  | AnyCluster (Some c) => StringValue c.(ClusterStatus_)
  | AnyFargateProfile (Some f) => StringValue f.(FargateProfileStatus_)
  | AnyNodegroup (Some n) => StringValue n.(NodegroupStatus_)
  | AnyUpdate (Some u) => StringValue u.(UpdateStatus)
  | AnyAddon (Some ad) => StringValue ad.(AddonStatus)
  | _ => ""
  end.

(** ** Designated states *)

(** The success discriminator of a waiter; the delete waiters have none, since
    they wait for the resource to disappear. *)
Definition successState (w : Waiter) : option string :=
  match w with
  | WClusterCreated => Some eks.ClusterStatusActive
  | WFargateProfileCreated => Some eks.FargateProfileStatusActive
  | WNodegroupCreated => Some eks.NodegroupStatusActive
  | WEksAddonCreated => Some eks.AddonStatusActive
  | WClusterUpdateSuccessful | WNodegroupUpdateSuccessful
  | WEksAddonUpdateSuccessful => Some eks.UpdateStatusSuccessful
  | WClusterDeleted | WFargateProfileDeleted | WNodegroupDeleted
  | WEksAddonDeleted => None
  end.

Definition isEksAddonUpdateSuccessful (w : Waiter) : bool :=
  match w with
  | WEksAddonUpdateSuccessful => true
  | _ => false
  end.

(** ** Sample data *)

Definition sampleArgs : Args :=
  {| clusterName := "prod"; name := "vpc-cni"; id := "u-1";
     timeout := (5 * Minute)%Z |}.

Definition activeCluster : Cluster :=
  {| ClusterName := Some "prod"; ClusterStatus_ := Some "ACTIVE" |}.

Definition activeAddon : Addon :=
  {| AddonName := Some "vpc-cni"; AddonStatus := Some "ACTIVE"; Health := None |}.

Definition successfulUpdate : Update :=
  {| UpdateId := Some "u-1"; UpdateStatus := Some "Successful"; UpdateErrors := [] |}.

Definition failedAddonNoIssue : Addon :=
  {| AddonName := Some "vpc-cni"; AddonStatus := Some "CREATE_FAILED";
     Health := Some {| Issues := [] |} |}.

Definition failedUpdateNoError : Update :=
  {| UpdateId := Some "u-1"; UpdateStatus := Some "Failed"; UpdateErrors := [] |}.

(** ** Sub-errors and their rendering *)

(** A sub-error as the payload carries it: a code and a message. *)
Definition SubError := (StringPtr * StringPtr)%type.

Definition issueOf (s : SubError) : option AddonIssue :=
  Some {| IssueCode := fst s; IssueMessage := snd s |}.

Definition errorDetailOf (s : SubError) : option ErrorDetail :=
  Some {| ErrorCode := fst s; ErrorMessage := snd s |}.

(** The entry number [n] of an aggregated message. *)
Definition entry (n : nat) (s : SubError) : string :=
  "Error " ++ itoa n ++ ": Code: " ++ StringValue (fst s) ++
  " / Message: " ++ StringValue (snd s).

(** One entry per sub-error, in order, numbered from [n]. *)
Fixpoint entriesFrom (n : nat) (subs : list SubError) : list string :=
  match subs with
  | [] => []
  | s :: rest => entry n s :: entriesFrom (S n) rest
  end.

(** The unnumbered rendering of a sub-error: code, colon, message. *)
Definition plainEntry (s : SubError) : error :=
  ErrorString (StringValue (fst s) ++ ": " ++ StringValue (snd s)).

Definition twoErrors : list SubError :=
  [(Some "E1", Some "boom"); (Some "E2", Some "bad")].

Definition failedAddon : Addon :=
  {| AddonName := Some "vpc-cni"; AddonStatus := Some "CREATE_FAILED";
     Health := Some {| Issues := map issueOf twoErrors |} |}.

Definition failedUpdate : Update :=
  {| UpdateId := Some "u-1"; UpdateStatus := Some "Failed";
     UpdateErrors := map errorDetailOf twoErrors |}.

(** A service whose every lookup answers with the same object and state. *)
Definition steadyService (object : any) (state : string) : EKS :=
  fun _ _ => (object, state, None).

(** The rendered message of the error a call returns. *)
Definition messageOf (r : result) : option string :=
  match r with
  | Ret _ (Some e) => Some (Error_ e)
  | _ => None
  end.

(** The messages of the two add-on waiters: a context line, then the entries. *)
Definition createdMessage (status : string) (detailedErrors : list string) : string :=
  "creation not successful (" ++ status ++ "): Errors:" ++ newline ++
  Join detailedErrors newline.

Definition updateMessage (a : Args) (status : string) (detailedErrors : list string)
  : string :=
  "EKS add-on (" ++ a.(clusterName) ++ ":" ++ a.(name) ++ ") update (" ++ a.(id) ++
  ") not successful (" ++ status ++ "): Errors:" ++ newline ++
  Join detailedErrors newline.

(** The error the engine reports for a state outside both sets, once the
    update waiters have stored the aggregate of [twoErrors] in it. *)
Definition unexpectedFailed : error :=
  UnexpectedStateError "Failed" (Some (MultiError (map plainEntry twoErrors))).

(** Other arguments, to compare calls that differ in their names only. *)
Definition otherArgs : Args :=
  {| clusterName := "staging"; name := "coredns"; id := "u-2";
     timeout := (7 * Minute)%Z |}.

(** ** Nil pointers in the payload *)

(** No entry of a slice of pointers is nil. *)
Definition noNilEntry {A : Type} (l : list (option A)) : bool :=
  forallb (fun x => match x with Some _ => true | None => false end) l.

(** The waiters that return the payload without reading any of its fields. *)
Definition returnsPayloadUnread (w : Waiter) : bool :=
  match w with
  | WClusterCreated | WClusterDeleted | WFargateProfileCreated
  | WFargateProfileDeleted | WNodegroupCreated | WNodegroupDeleted
  | WEksAddonDeleted => true
  | _ => false
  end.

(** The waiters on an [eks.Update]. *)
Definition isUpdateWaiter (w : Waiter) : bool :=
  match w with
  | WClusterUpdateSuccessful | WNodegroupUpdateSuccessful
  | WEksAddonUpdateSuccessful => true
  | _ => false
  end.

Definition failedAddonNoHealth : Addon :=
  {| AddonName := Some "vpc-cni"; AddonStatus := Some "CREATE_FAILED"; Health := None |}.

Definition failedAddonNilIssue : Addon :=
  {| AddonName := Some "vpc-cni"; AddonStatus := Some "CREATE_FAILED";
     Health := Some {| Issues := [None] |} |}.

Definition failedUpdateNilError : Update :=
  {| UpdateId := Some "u-1"; UpdateStatus := Some "Failed"; UpdateErrors := [None] |}.

Definition failedUpdateOtherCode : Update :=
  {| UpdateId := Some "u-1"; UpdateStatus := Some "Failed";
     UpdateErrors := map errorDetailOf [(Some "E9", Some "boom"); (Some "E2", Some "bad")] |}.

(** ** Answers of the probe *)

(** The answer number [k] of the probe carries no error and a pending state
    that is not a target state: the engine sleeps and polls again. *)
Definition pendingAnswer (conf : StateChangeConf) (k : nat) : bool :=
  let '(_, state, probeErr) := conf.(Refresh) k in
  match probeErr with
  | Some _ => false
  | None => negb (inStates state conf.(Target)) && inStates state conf.(Pending)
  end.

(** The nil pointer of the type a waiter returns. *)
Definition nilOf (w : Waiter) : any :=
  match w with
  | WClusterCreated | WClusterDeleted => AnyCluster None
  | WFargateProfileCreated | WFargateProfileDeleted => AnyFargateProfile None
  | WNodegroupCreated | WNodegroupDeleted => AnyNodegroup None
  | WClusterUpdateSuccessful | WNodegroupUpdateSuccessful
  | WEksAddonUpdateSuccessful => AnyUpdate None
  | WEksAddonCreated | WEksAddonDeleted => AnyAddon None
  end.

(** A delete-style wait: the target set is empty. *)
Definition deleteStyle (conf : StateChangeConf) : bool :=
  Nat.eqb (length conf.(Target)) 0.

(** The error of a result is not nil. *)
Definition failed (r : result) : bool :=
  match r with
  | Ret _ (Some _) => true
  | _ => false
  end.

(** ** Scripted services *)

(** The error of the EKS API for a resource that does not exist. *)
Definition notFound : error :=
  AwsError "ResourceNotFoundException" "No addon: vpc-cni found in cluster: prod".

Definition deletingAddon : Addon :=
  {| AddonName := Some "vpc-cni"; AddonStatus := Some "DELETING"; Health := None |}.

Definition creatingCluster : Cluster :=
  {| ClusterName := Some "prod"; ClusterStatus_ := Some "CREATING" |}.

(** Every lookup fails with [notFound]. *)
Definition goneService : EKS :=
  fun _ _ => (AnyNil, "", Some notFound).

(** The add-on is being deleted for two polls, then it is gone. *)
Definition deletingService : EKS :=
  fun _ k => if Nat.ltb k 2 then (AnyAddon (Some deletingAddon), "DELETING", None)
             else (AnyNil, "", Some notFound).

(** The cluster is being created, for ever. *)
Definition creatingService : EKS :=
  steadyService (AnyCluster (Some creatingCluster)) "CREATING".

(** The signal is set from the check number [k] on. *)
Definition cancelledFrom (k : nat) : Context := fun j => Nat.leb k j.

(** The waiters that take a [context.Context]. *)
Definition takesContext (w : Waiter) : bool :=
  match w with
  | WEksAddonCreated | WEksAddonDeleted | WEksAddonUpdateSuccessful => true
  | _ => false
  end.

Definition creatingAddon : Addon :=
  {| AddonName := Some "vpc-cni"; AddonStatus := Some "CREATING"; Health := None |}.

(** The add-on is being created, for ever. *)
Definition creatingAddonService : EKS :=
  steadyService (AnyAddon (Some creatingAddon)) "CREATING".

(** ** Reading a result *)

(** The error a waiter hands on when it has no payload of its type to look
    at: the engine's error, except that [EksAddonDeleted] drops an error that
    has the not-found code, itself or along its chain of wrapped errors. *)
Definition handedOn (w : Waiter) (err : option error) : option error :=
  match w, err with
  | WEksAddonDeleted, Some e => if isNotFound e then None else err
  | _, _ => err
  end.

(** The four waiters for a deletion. *)
Definition isDeletedWaiter (w : Waiter) : bool :=
  match w with
  | WClusterDeleted | WFargateProfileDeleted | WNodegroupDeleted
  | WEksAddonDeleted => true
  | _ => false
  end.

(** The waiter for the deletion of what a waiter sees created. *)
Definition deletedFor (w : Waiter) : option Waiter :=
  match w with
  | WClusterCreated => Some WClusterDeleted
  | WFargateProfileCreated => Some WFargateProfileDeleted
  | WNodegroupCreated => Some WNodegroupDeleted
  | WEksAddonCreated => Some WEksAddonDeleted
  | _ => None
  end.

(** The two waiters that build an error of their own with [fmt.Errorf]. *)
Definition buildsErrors (w : Waiter) : bool :=
  match w with
  | WEksAddonCreated | WEksAddonUpdateSuccessful => true
  | _ => false
  end.

Definition timedOut : error := TimeoutError "CREATING" None.



(** No pointer nested in a snapshot is nil: the health record and every
    issue of an add-on, every error of an update. *)
Definition noNilInside (v : any) : bool :=
  match v with
  | AnyAddon (Some addon) =>
      match addon.(Health) with
      | Some health => noNilEntry health.(Issues)
      | None => false
      end
  | AnyUpdate (Some update) => noNilEntry update.(UpdateErrors)
  | _ => true
  end.

(** ** Applying a waiter to its own result *)

(** A success outcome of the wait of the waiter [w]: for a waiter of a
    deletion, no object at all (the resource is gone) or an object of the
    waiter's type (the resource is still there in a state that is not
    pending); for the others, a snapshot of the waiter's type, not nil, whose
    status is the success discriminator. *)
Definition successOutcome (w : Waiter) (outputRaw : any) : bool :=
  if isDeletedWaiter w
  then match outputRaw with
       | AnyNil => true
       | _ => hasTypeOf w outputRaw
       end
  else hasTypeOf w outputRaw && negb (isNil outputRaw) &&
       match successState w with
       | Some s => String.eqb s (statusOf outputRaw)
       | None => false
       end.

(** The part of a waiter that follows the wait, applied to a result the
    waiter returned: the returned pointer is the object, the returned error
    the error. *)
Definition reapply (w : Waiter) (a : Args) (r : result) : result :=
  match r with
  | Ret object err => afterWait w a object err
  | Panic => Panic
  end.

(** ** Structure of the waiters *)

(** Every waiter is its post-wait part applied to what the engine answers for
    the waiter's configuration under the waiter's context. *)
Lemma callWaiter_afterWait (E : Engine) (w : Waiter) (ctx : Context) (conn : EKS)
  (a : Args) :
  callWaiter E w ctx conn a =
  afterWait w a (fst (E (contextOf w ctx) (stateConfOf w ctx conn a)))
                (snd (E (contextOf w ctx) (stateConfOf w ctx conn a))).
Proof.
  destruct w; cbn [callWaiter contextOf stateConfOf afterWait];
    unfold ClusterCreated, ClusterDeleted, ClusterUpdateSuccessful,
      FargateProfileCreated, FargateProfileDeleted, NodegroupCreated,
      NodegroupDeleted, NodegroupUpdateSuccessful, EksAddonCreated,
      EksAddonDeleted, EksAddonUpdateSuccessful, WaitForState, finished;
    match goal with |- context [E ?c ?s] => destruct (E c s) as [outputRaw err] end;
    reflexivity.
Qed.

(** ** The configurations *)

(** C7: in the configuration built by every waiter of the file, no state
    string belongs to both the pending set and the target set. *)
Theorem pending_target_disjoint (w : Waiter) (ctx : Context) (conn : EKS)
  (a : Args) (s : string) :
  ~ (In s (Pending (stateConfOf w ctx conn a)) /\
     In s (Target (stateConfOf w ctx conn a))).
Proof.
  intros [HP HT].
  destruct w; cbn in HP, HT;
    repeat match goal with
           | H : _ \/ _ |- _ => destruct H
           | H : False |- _ => destruct H
           end;
    subst; discriminate.
Qed.

(** ** The part of a waiter that follows the wait *)

(** What every waiter does with a snapshot of its type in the success state. *)
Lemma afterWait_on_success (w : Waiter) (a : Args) (outputRaw : any)
  (err : option error) :
  hasTypeOf w outputRaw = true ->
  isNil outputRaw = false ->
  successState w = Some (statusOf outputRaw) ->
  afterWait w a outputRaw err =
  Ret (if isEksAddonUpdateSuccessful w then AnyUpdate None else outputRaw) err.
Proof.
  intros Hty Hnil Hst.
  destruct w; destruct outputRaw as [|[c|]|[f|]|[n|]|[u|]|[ad|]|t];
    try discriminate Hty; try discriminate Hnil; try discriminate Hst;
    cbn in Hst; injection Hst as Hst;
    cbv [afterWait callWaiter finished WaitForState ClusterCreated
         FargateProfileCreated NodegroupCreated ClusterUpdateSuccessful
         NodegroupUpdateSuccessful updateOutcome EksAddonCreated
         EksAddonUpdateSuccessful box isEksAddonUpdateSuccessful];
    try reflexivity; rewrite <- Hst; cbn; try reflexivity.
  destruct err; reflexivity.
Qed.

(** C5: when the snapshot given back by the engine has the type the waiter
    expects and its status is the waiter's success discriminator, the waiter
    returns that snapshot as it is, together with the engine's error; the one
    exception is [EksAddonUpdateSuccessful], which returns a nil pointer. *)
Theorem success_passes_through (w : Waiter) (a : Args) (outputRaw : any)
  (err : option error) :
  hasTypeOf w outputRaw = true ->
  isNil outputRaw = false ->
  successState w = Some (statusOf outputRaw) ->
  afterWait w a outputRaw err =
  Ret (if isEksAddonUpdateSuccessful w then AnyUpdate None else outputRaw) err.
Proof.
  exact (afterWait_on_success w a outputRaw err).
Qed.

Lemma success_passes_through_witness :
  afterWait WEksAddonCreated sampleArgs (AnyAddon (Some activeAddon)) None =
    Ret (AnyAddon (Some activeAddon)) None /\
  afterWait WEksAddonUpdateSuccessful sampleArgs (AnyUpdate (Some successfulUpdate)) None =
    Ret (AnyUpdate None) None.
Proof.
  split.
  - exact (success_passes_through WEksAddonCreated sampleArgs
             (AnyAddon (Some activeAddon)) None eq_refl eq_refl eq_refl).
  - exact (success_passes_through WEksAddonUpdateSuccessful sampleArgs
             (AnyUpdate (Some successfulUpdate)) None eq_refl eq_refl eq_refl).
Defined.

(** C10, amended: for [EksAddonCreated] and [EksAddonUpdateSuccessful], a
    snapshot in the failure or cancelled terminal state that carries no
    sub-error still yields a non-nil error, whose message stops after the
    [Errors:] line, and the snapshot itself is returned with it; for
    [EksAddonCreated] this needs the health record of the add-on not to be
    nil, its list of issues being empty.  A CREATE_FAILED add-on whose health
    record is nil makes [EksAddonCreated] fault instead. *)
Theorem failure_without_suberrors :
  (forall (a : Args) (addon : Addon) (health : AddonHealth) (err : option error),
      StringValue addon.(AddonStatus) = eks.AddonStatusCreateFailed ->
      addon.(Health) = Some health ->
      health.(Issues) = [] ->
      afterWait WEksAddonCreated a (AnyAddon (Some addon)) err =
      Ret (AnyAddon (Some addon))
          (Some (ErrorString ("creation not successful (CREATE_FAILED): Errors:" ++ newline)))) /\
  (forall (a : Args) (update : Update),
      StringValue update.(UpdateStatus) = eks.UpdateStatusFailed \/
      StringValue update.(UpdateStatus) = eks.UpdateStatusCancelled ->
      update.(UpdateErrors) = [] ->
      afterWait WEksAddonUpdateSuccessful a (AnyUpdate (Some update)) None =
      Ret (AnyUpdate (Some update))
          (Some (ErrorString ("EKS add-on (" ++ a.(clusterName) ++ ":" ++ a.(name) ++
                              ") update (" ++ a.(id) ++ ") not successful (" ++
                              StringValue update.(UpdateStatus) ++ "): Errors:" ++ newline)))) /\
  (forall (a : Args) (addon : Addon) (err : option error),
      StringValue addon.(AddonStatus) = eks.AddonStatusCreateFailed ->
      addon.(Health) = None ->
      afterWait WEksAddonCreated a (AnyAddon (Some addon)) err = Panic).
Proof.
  repeat apply conj.
  - intros a addon health err Hst Hh Hi.
    cbv [afterWait callWaiter finished EksAddonCreated box].
    rewrite Hst, Hh, Hi. reflexivity.
  - intros a update Hst He.
    cbv [afterWait callWaiter finished EksAddonUpdateSuccessful box].
    rewrite He.
    destruct Hst as [Hst | Hst]; rewrite Hst; reflexivity.
  - intros a addon err Hst Hh.
    cbv [afterWait callWaiter finished EksAddonCreated box].
    rewrite Hst, Hh. reflexivity.
Qed.

Lemma failure_without_suberrors_witness :
  afterWait WEksAddonCreated sampleArgs (AnyAddon (Some failedAddonNoIssue)) None =
    Ret (AnyAddon (Some failedAddonNoIssue))
        (Some (ErrorString ("creation not successful (CREATE_FAILED): Errors:" ++ newline))) /\
  afterWait WEksAddonUpdateSuccessful sampleArgs (AnyUpdate (Some failedUpdateNoError)) None =
    Ret (AnyUpdate (Some failedUpdateNoError))
        (Some (ErrorString
                 ("EKS add-on (prod:vpc-cni) update (u-1) not successful (Failed): Errors:"
                  ++ newline))) /\
  afterWait WEksAddonCreated sampleArgs (AnyAddon (Some failedAddonNoHealth))
            (Some timedOut) = Panic.
Proof.
  repeat apply conj.
  - exact (proj1 failure_without_suberrors sampleArgs failedAddonNoIssue
             {| Issues := [] |} None eq_refl eq_refl eq_refl).
  - exact (proj1 (proj2 failure_without_suberrors) sampleArgs failedUpdateNoError
             (or_introl eq_refl) eq_refl).
  - exact (proj2 (proj2 failure_without_suberrors) sampleArgs failedAddonNoHealth
             (Some timedOut) eq_refl eq_refl).
Defined.

(** C10, as stated, fails for [EksAddonCreated]: an add-on in CREATE_FAILED
    whose health record is nil carries no sub-error, and the waiter neither
    returns an error nor the add-on: it faults on [addon.Health.Issues]. *)
Lemma addon_without_health_yields_no_error :
  StringValue failedAddonNoHealth.(AddonStatus) = eks.AddonStatusCreateFailed /\
  failedAddonNoHealth.(Health) = None /\
  afterWait WEksAddonCreated sampleArgs (AnyAddon (Some failedAddonNoHealth)) None = Panic /\
  failed (afterWait WEksAddonCreated sampleArgs (AnyAddon (Some failedAddonNoHealth)) None)
    = false /\
  callWaiter (wait Second) WEksAddonCreated Background
    (steadyService (AnyAddon (Some failedAddonNoHealth)) "CREATE_FAILED") sampleArgs = Panic.
Proof.
  repeat apply conj; vm_compute; reflexivity.
Qed.

(** *** The loops, as functions of the list of sub-errors *)

Lemma appendAddonIssues_entries (subs : list SubError) :
  forall (acc : list string) (i : nat),
    appendAddonIssues acc i (map issueOf subs) = Some (acc ++ entriesFrom (i + 1) subs)%list.
Proof.
  induction subs as [|s rest IH]; intros acc i; cbn [map appendAddonIssues issueOf entriesFrom].
  - now rewrite app_nil_r.
  - cbn [IssueCode IssueMessage]. rewrite IH, <- app_assoc. reflexivity.
Qed.

Lemma appendDetailedUpdateErrors_entries (subs : list SubError) :
  forall (acc : list string) (i : nat),
    appendDetailedUpdateErrors acc i (map errorDetailOf subs) =
    Some (acc ++ entriesFrom (i + 1) subs)%list.
Proof.
  induction subs as [|s rest IH]; intros acc i;
    cbn [map appendDetailedUpdateErrors errorDetailOf entriesFrom].
  - now rewrite app_nil_r.
  - cbn [ErrorCode ErrorMessage]. rewrite IH, <- app_assoc. reflexivity.
Qed.

Lemma appendUpdateErrors_plain (subs : list SubError) :
  forall acc : list error,
    appendUpdateErrors acc (map errorDetailOf subs) = Some (acc ++ map plainEntry subs)%list.
Proof.
  induction subs as [|s rest IH]; intros acc; cbn [map appendUpdateErrors errorDetailOf].
  - now rewrite app_nil_r.
  - cbn [ErrorCode ErrorMessage]. rewrite IH, <- app_assoc. reflexivity.
Qed.

(** C2, amended: for [EksAddonCreated] and [EksAddonUpdateSuccessful] the
    message of a failure or cancelled terminal snapshot holds, after its
    context line, one entry per sub-error with its code and message, in
    encounter order, numbered from 1 and separated by newlines;
    [ClusterUpdateSuccessful] and [NodegroupUpdateSuccessful] render each
    sub-error as code, colon, message, unnumbered and in encounter order, and
    hand the aggregate to [SetLastError] for the engine's error. *)
Theorem suberrors_rendered_in_order :
  (forall (a : Args) (addon : Addon) (subs : list SubError) (err : option error),
      StringValue addon.(AddonStatus) = eks.AddonStatusCreateFailed ->
      addon.(Health) = Some {| Issues := map issueOf subs |} ->
      afterWait WEksAddonCreated a (AnyAddon (Some addon)) err =
      Ret (AnyAddon (Some addon))
          (Some (ErrorString (createdMessage eks.AddonStatusCreateFailed
                                             (entriesFrom 1 subs))))) /\
  (forall (a : Args) (update : Update) (subs : list SubError),
      StringValue update.(UpdateStatus) = eks.UpdateStatusFailed \/
      StringValue update.(UpdateStatus) = eks.UpdateStatusCancelled ->
      update.(UpdateErrors) = map errorDetailOf subs ->
      afterWait WEksAddonUpdateSuccessful a (AnyUpdate (Some update)) None =
      Ret (AnyUpdate (Some update))
          (Some (ErrorString (updateMessage a (StringValue update.(UpdateStatus))
                                            (entriesFrom 1 subs))))) /\
  (forall (w : Waiter) (a : Args) (update : Update) (subs : list SubError)
          (err : option error),
      w = WClusterUpdateSuccessful \/ w = WNodegroupUpdateSuccessful ->
      StringValue update.(UpdateStatus) = eks.UpdateStatusFailed \/
      StringValue update.(UpdateStatus) = eks.UpdateStatusCancelled ->
      update.(UpdateErrors) = map errorDetailOf subs ->
      afterWait w a (AnyUpdate (Some update)) err =
      Ret (AnyUpdate (Some update))
          (SetLastError err (ErrorOrNil (map plainEntry subs)))).
Proof.
  split; [|split].
  - intros a addon subs err Hst Hh.
    cbv [afterWait callWaiter finished EksAddonCreated box].
    rewrite Hst, Hh. cbn [String.eqb Ascii.eqb Bool.eqb eks.AddonStatusCreateFailed Issues].
    rewrite appendAddonIssues_entries. reflexivity.
  - intros a update subs Hst He.
    cbv [afterWait callWaiter finished EksAddonUpdateSuccessful box].
    rewrite He, appendDetailedUpdateErrors_entries.
    destruct Hst as [Hst | Hst]; rewrite Hst; reflexivity.
  - intros w a update subs err Hw Hst He.
    destruct Hw; subst w;
      cbv [afterWait callWaiter finished ClusterUpdateSuccessful
           NodegroupUpdateSuccessful WaitForState updateOutcome box];
      rewrite He, appendUpdateErrors_plain;
      destruct Hst as [Hst | Hst]; rewrite Hst; reflexivity.
Qed.

Lemma suberrors_rendered_in_order_witness :
  afterWait WEksAddonCreated sampleArgs (AnyAddon (Some failedAddon)) None =
    Ret (AnyAddon (Some failedAddon))
        (Some (ErrorString
                 ("creation not successful (CREATE_FAILED): Errors:" ++ newline ++
                  "Error 1: Code: E1 / Message: boom" ++ newline ++
                  "Error 2: Code: E2 / Message: bad"))) /\
  afterWait WEksAddonUpdateSuccessful sampleArgs (AnyUpdate (Some failedUpdate)) None =
    Ret (AnyUpdate (Some failedUpdate))
        (Some (ErrorString
                 ("EKS add-on (prod:vpc-cni) update (u-1) not successful (Failed): Errors:"
                  ++ newline ++
                  "Error 1: Code: E1 / Message: boom" ++ newline ++
                  "Error 2: Code: E2 / Message: bad"))) /\
  afterWait WClusterUpdateSuccessful sampleArgs (AnyUpdate (Some failedUpdate))
            (Some (UnexpectedStateError "Failed" None)) =
    Ret (AnyUpdate (Some failedUpdate)) (Some unexpectedFailed).
Proof.
  split; [|split].
  - exact (proj1 suberrors_rendered_in_order sampleArgs failedAddon twoErrors None
             eq_refl eq_refl).
  - exact (proj1 (proj2 suberrors_rendered_in_order) sampleArgs failedUpdate twoErrors
             (or_introl eq_refl) eq_refl).
  - exact (proj2 (proj2 suberrors_rendered_in_order) WClusterUpdateSuccessful sampleArgs
             failedUpdate twoErrors (Some (UnexpectedStateError "Failed" None))
             (or_introl eq_refl) (or_introl eq_refl) eq_refl).
Defined.

(** C2, as stated, fails for [ClusterUpdateSuccessful]: on an update that
    failed with the sub-errors E1/boom and E2/bad, the message of the returned
    error shows them as [E1: boom] and [E2: bad] and has no numbered entry. *)
Lemma cluster_update_message_has_no_numbered_entry :
  callWaiter (wait Second) WClusterUpdateSuccessful Background
             (steadyService (AnyUpdate (Some failedUpdate)) "Failed") sampleArgs =
    Ret (AnyUpdate (Some failedUpdate)) (Some unexpectedFailed) /\
  Contains (Error_ unexpectedFailed) "Error 1: Code: E1 / Message: boom" = false /\
  Contains (Error_ unexpectedFailed) "E1: boom" = true /\
  Contains (Error_ unexpectedFailed) "E2: bad" = true /\
  appendUpdateErrors [] failedUpdate.(UpdateErrors) =
    Some [ErrorString "E1: boom"; ErrorString "E2: bad"] /\
  afterWait WClusterUpdateSuccessful sampleArgs (AnyUpdate (Some failedUpdate)) None =
    Ret (AnyUpdate (Some failedUpdate)) None.
Proof.
  repeat split; vm_compute; reflexivity.
Qed.

(** The order of the entries in the message of [EksAddonUpdateSuccessful]. *)
Example numbered_entries_in_order :
  exists (m : string) (i1 i2 : nat),
    messageOf (callWaiter (wait Second) WEksAddonUpdateSuccessful Background
                 (steadyService (AnyUpdate (Some failedUpdate)) "Failed") sampleArgs) = Some m /\
    Index m "Error 1: Code: E1 / Message: boom" = Some i1 /\
    Index m "Error 2: Code: E2 / Message: bad" = Some i2 /\
    i1 < i2.
Proof.
  eexists; eexists; eexists.
  split; [vm_compute; reflexivity|].
  split; [vm_compute; reflexivity|].
  split; [vm_compute; reflexivity|].
  apply Nat.ltb_lt. vm_compute. reflexivity.
Qed.

(** C4, amended: only [EksAddonUpdateSuccessful] prefixes its message with
    the resource kind, the cluster and add-on names, the update identifier
    and the observed status.  [EksAddonCreated] prefixes its message with the
    observed status alone.  In every waiter other than
    [EksAddonUpdateSuccessful] the names and the identifier serve only to
    build the configuration handed to the engine: what the waiter makes of
    the engine's answer does not depend on them. *)
Theorem failure_message_context :
  (forall (a : Args) (update : Update),
      String.eqb (StringValue update.(UpdateStatus)) eks.UpdateStatusSuccessful = false ->
      match afterWait WEksAddonUpdateSuccessful a (AnyUpdate (Some update)) None with
      | Panic => True
      | Ret object err =>
          object = AnyUpdate (Some update) /\
          exists detailedErrors,
            err = Some (ErrorString
                          (updateMessage a (StringValue update.(UpdateStatus)) detailedErrors))
      end) /\
  (forall (a : Args) (addon : Addon) (err : option error),
      StringValue addon.(AddonStatus) = eks.AddonStatusCreateFailed ->
      match afterWait WEksAddonCreated a (AnyAddon (Some addon)) err with
      | Panic => True
      | Ret object err' =>
          object = AnyAddon (Some addon) /\
          exists detailedErrors,
            err' = Some (ErrorString
                           (createdMessage eks.AddonStatusCreateFailed detailedErrors))
      end) /\
  (forall (w : Waiter) (a a' : Args) (outputRaw : any) (err : option error),
      isEksAddonUpdateSuccessful w = false ->
      afterWait w a outputRaw err = afterWait w a' outputRaw err) /\
  (forall (E : Engine) (w : Waiter) (ctx : Context) (conn : EKS) (a a' : Args),
      isEksAddonUpdateSuccessful w = false ->
      callWaiter E w ctx conn a =
      afterWait w a' (fst (E (contextOf w ctx) (stateConfOf w ctx conn a)))
                     (snd (E (contextOf w ctx) (stateConfOf w ctx conn a)))).
Proof.
  split; [|split; [|split]].
  - intros a update Hst.
    cbv [afterWait callWaiter finished EksAddonUpdateSuccessful box].
    rewrite Hst.
    destruct (appendDetailedUpdateErrors [] 0 (UpdateErrors update)) as [d|]; [|exact I].
    split; [reflexivity | exists d; reflexivity].
  - intros a addon err Hst.
    cbv [afterWait callWaiter finished EksAddonCreated box].
    rewrite Hst. cbn [String.eqb Ascii.eqb Bool.eqb eks.AddonStatusCreateFailed].
    destruct (Health addon) as [h|]; [|exact I].
    destruct (appendAddonIssues [] 0 (Issues h)) as [d|]; [|exact I].
    split; [reflexivity | exists d; reflexivity].
  - intros w a a' outputRaw err Hw.
    destruct w; try discriminate Hw; reflexivity.
  - intros E w ctx conn a a' Hw.
    rewrite callWaiter_afterWait.
    destruct w; try discriminate Hw; reflexivity.
Qed.

Lemma failure_message_context_witness :
  match afterWait WEksAddonUpdateSuccessful sampleArgs (AnyUpdate (Some failedUpdate)) None with
  | Panic => True
  | Ret object err =>
      object = AnyUpdate (Some failedUpdate) /\
      exists detailedErrors,
        err = Some (ErrorString (updateMessage sampleArgs "Failed" detailedErrors))
  end /\
  match afterWait WEksAddonCreated sampleArgs (AnyAddon (Some failedAddon)) None with
  | Panic => True
  | Ret object err' =>
      object = AnyAddon (Some failedAddon) /\
      exists detailedErrors,
        err' = Some (ErrorString (createdMessage "CREATE_FAILED" detailedErrors))
  end /\
  afterWait WClusterUpdateSuccessful sampleArgs (AnyUpdate (Some failedUpdate))
            (Some (UnexpectedStateError "Failed" None)) =
  afterWait WClusterUpdateSuccessful otherArgs (AnyUpdate (Some failedUpdate))
            (Some (UnexpectedStateError "Failed" None)).
Proof.
  split; [|split].
  - exact (proj1 failure_message_context sampleArgs failedUpdate eq_refl).
  - exact (proj1 (proj2 failure_message_context) sampleArgs failedAddon None eq_refl).
  - exact (proj1 (proj2 (proj2 failure_message_context)) WClusterUpdateSuccessful
             sampleArgs otherArgs (AnyUpdate (Some failedUpdate))
             (Some (UnexpectedStateError "Failed" None)) eq_refl).
Defined.

(** C4, as stated, fails for [EksAddonCreated]: the message for a failed
    creation of the add-on vpc-cni in the cluster prod names neither, nor the
    kind of resource; it starts with the status line. *)
Lemma addon_created_message_has_no_name :
  exists m : string,
    messageOf (callWaiter (wait Second) WEksAddonCreated Background
                 (steadyService (AnyAddon (Some failedAddon)) "CREATE_FAILED")
                 sampleArgs) = Some m /\
    HasPrefix m "creation not successful (CREATE_FAILED): Errors:" = true /\
    Contains m "vpc-cni" = false /\
    Contains m "prod" = false /\
    Contains m "add-on" = false.
Proof.
  eexists. split; [vm_compute; reflexivity|].
  repeat split; vm_compute; reflexivity.
Qed.

(** *** Faults *)

Lemma appendAddonIssues_total (l : list (option AddonIssue)) :
  noNilEntry l = true ->
  forall (acc : list string) (i : nat), appendAddonIssues acc i l <> None.
Proof.
  induction l as [|[x|] rest IH]; cbn [noNilEntry forallb appendAddonIssues];
    intros H acc i; try discriminate.
  apply IH. exact H.
Qed.

Lemma appendDetailedUpdateErrors_total (l : list (option ErrorDetail)) :
  noNilEntry l = true ->
  forall (acc : list string) (i : nat), appendDetailedUpdateErrors acc i l <> None.
Proof.
  induction l as [|[x|] rest IH]; cbn [noNilEntry forallb appendDetailedUpdateErrors];
    intros H acc i; try discriminate.
  apply IH. exact H.
Qed.

Lemma appendUpdateErrors_total (l : list (option ErrorDetail)) :
  noNilEntry l = true ->
  forall acc : list error, appendUpdateErrors acc l <> None.
Proof.
  induction l as [|[x|] rest IH]; cbn [noNilEntry forallb appendUpdateErrors];
    intros H acc; try discriminate.
  apply IH. exact H.
Qed.

Lemma appendAddonIssues_nil_entry (l : list (option AddonIssue)) :
  noNilEntry l = false ->
  forall (acc : list string) (i : nat), appendAddonIssues acc i l = None.
Proof.
  induction l as [|[x|] rest IH]; cbn [noNilEntry forallb appendAddonIssues andb];
    intros H acc i; try discriminate; [apply IH; exact H | reflexivity].
Qed.

Lemma appendDetailedUpdateErrors_nil_entry (l : list (option ErrorDetail)) :
  noNilEntry l = false ->
  forall (acc : list string) (i : nat), appendDetailedUpdateErrors acc i l = None.
Proof.
  induction l as [|[x|] rest IH];
    cbn [noNilEntry forallb appendDetailedUpdateErrors andb];
    intros H acc i; try discriminate; [apply IH; exact H | reflexivity].
Qed.

Lemma appendUpdateErrors_nil_entry (l : list (option ErrorDetail)) :
  noNilEntry l = false ->
  forall acc : list error, appendUpdateErrors acc l = None.
Proof.
  induction l as [|[x|] rest IH]; cbn [noNilEntry forallb appendUpdateErrors andb];
    intros H acc; try discriminate; [apply IH; exact H | reflexivity].
Qed.

(** C9, amended: [EksAddonCreated] reads [addon.Health.Issues] whenever the
    add-on it got has status CREATE_FAILED, whatever the engine's error: it
    faults when [Health] is nil, and it does not fault when [Health] is not
    nil and no entry of [Issues] is nil; with another status it reads no
    nested field.  The seven waiters that return the payload unread never
    fault; the three update waiters read the code and message of every entry
    of [Errors] and do not fault when no entry is nil. *)
Theorem nested_fields_and_faults :
  (forall (a : Args) (addon : Addon) (err : option error),
      StringValue addon.(AddonStatus) = eks.AddonStatusCreateFailed ->
      addon.(Health) = None ->
      afterWait WEksAddonCreated a (AnyAddon (Some addon)) err = Panic) /\
  (forall (a : Args) (addon : Addon) (health : AddonHealth) (err : option error),
      StringValue addon.(AddonStatus) = eks.AddonStatusCreateFailed ->
      addon.(Health) = Some health ->
      noNilEntry health.(Issues) = true ->
      afterWait WEksAddonCreated a (AnyAddon (Some addon)) err <> Panic) /\
  (forall (a : Args) (addon : Addon) (err : option error),
      String.eqb (StringValue addon.(AddonStatus)) eks.AddonStatusCreateFailed = false ->
      afterWait WEksAddonCreated a (AnyAddon (Some addon)) err =
      Ret (AnyAddon (Some addon)) err) /\
  (forall (w : Waiter) (a : Args) (outputRaw : any) (err : option error),
      returnsPayloadUnread w = true ->
      afterWait w a outputRaw err <> Panic) /\
  (forall (w : Waiter) (a : Args) (update : Update) (err : option error),
      isUpdateWaiter w = true ->
      noNilEntry update.(UpdateErrors) = true ->
      afterWait w a (AnyUpdate (Some update)) err <> Panic).
Proof.
  repeat apply conj.
  - intros a addon err Hst Hh.
    cbv [afterWait callWaiter finished EksAddonCreated box].
    rewrite Hst, Hh. reflexivity.
  - intros a addon health err Hst Hh Hn.
    cbv [afterWait callWaiter finished EksAddonCreated box].
    rewrite Hst, Hh. cbn [String.eqb Ascii.eqb Bool.eqb eks.AddonStatusCreateFailed].
    pose proof (appendAddonIssues_total _ Hn [] 0) as Ht.
    destruct (appendAddonIssues [] 0 (Issues health)); [discriminate | contradiction].
  - intros a addon err Hst.
    cbv [afterWait callWaiter finished EksAddonCreated box].
    rewrite Hst. reflexivity.
  - intros w a outputRaw err Hw.
    destruct w; try discriminate Hw;
      cbv [afterWait callWaiter finished WaitForState ClusterCreated ClusterDeleted
           FargateProfileCreated FargateProfileDeleted NodegroupCreated
           NodegroupDeleted EksAddonDeleted box];
      try (destruct outputRaw; discriminate).
    destruct (match err with Some e => _ | None => _ end);
      [discriminate | destruct outputRaw; discriminate].
  - intros w a update err Hw Hn.
    destruct w; try discriminate Hw;
      cbv [afterWait callWaiter finished WaitForState ClusterUpdateSuccessful
           NodegroupUpdateSuccessful updateOutcome EksAddonUpdateSuccessful box].
    + pose proof (appendUpdateErrors_total _ Hn []) as Ht.
      destruct (_ || _); [|discriminate].
      destruct (appendUpdateErrors [] (UpdateErrors update)); [discriminate | contradiction].
    + pose proof (appendUpdateErrors_total _ Hn []) as Ht.
      destruct (_ || _); [|discriminate].
      destruct (appendUpdateErrors [] (UpdateErrors update)); [discriminate | contradiction].
    + pose proof (appendDetailedUpdateErrors_total _ Hn [] 0) as Ht.
      destruct err; [discriminate|].
      destruct (String.eqb _ _); [discriminate|].
      destruct (appendDetailedUpdateErrors [] 0 (UpdateErrors update));
        [discriminate | contradiction].
Qed.

Lemma nested_fields_and_faults_witness :
  afterWait WEksAddonCreated sampleArgs (AnyAddon (Some failedAddonNoHealth)) None = Panic /\
  afterWait WEksAddonCreated sampleArgs (AnyAddon (Some failedAddon)) None <> Panic /\
  afterWait WEksAddonCreated sampleArgs (AnyAddon (Some activeAddon)) None =
    Ret (AnyAddon (Some activeAddon)) None /\
  afterWait WEksAddonDeleted sampleArgs (AnyAddon None) None <> Panic /\
  afterWait WNodegroupUpdateSuccessful sampleArgs (AnyUpdate (Some failedUpdate)) None <> Panic.
Proof.
  repeat apply conj.
  - exact (proj1 nested_fields_and_faults sampleArgs failedAddonNoHealth None
             eq_refl eq_refl).
  - exact (proj1 (proj2 nested_fields_and_faults) sampleArgs failedAddon
             {| Issues := map issueOf twoErrors |} None eq_refl eq_refl eq_refl).
  - exact (proj1 (proj2 (proj2 nested_fields_and_faults)) sampleArgs activeAddon None
             eq_refl).
  - exact (proj1 (proj2 (proj2 (proj2 nested_fields_and_faults))) WEksAddonDeleted
             sampleArgs (AnyAddon None) None eq_refl).
  - exact (proj2 (proj2 (proj2 (proj2 nested_fields_and_faults)))
             WNodegroupUpdateSuccessful sampleArgs failedUpdate None eq_refl eq_refl).
Defined.

(** C9, as stated, fails twice.  A CREATE_FAILED add-on whose [Health] is not
    nil still makes [EksAddonCreated] fault when an entry of [Issues] is nil.
    And other waiters depend on nested payload fields: the update waiters
    fault on a nil entry of [Errors], and the message of
    [EksAddonUpdateSuccessful] changes with the code nested in an entry. *)
Lemma nil_entries_fault_and_nested_codes_matter :
  failedAddonNilIssue.(Health) <> None /\
  afterWait WEksAddonCreated sampleArgs (AnyAddon (Some failedAddonNilIssue)) None = Panic /\
  afterWait WEksAddonUpdateSuccessful sampleArgs (AnyUpdate (Some failedUpdateNilError)) None
    = Panic /\
  afterWait WClusterUpdateSuccessful sampleArgs (AnyUpdate (Some failedUpdateNilError)) None
    = Panic /\
  messageOf (afterWait WEksAddonUpdateSuccessful sampleArgs
               (AnyUpdate (Some failedUpdate)) None) <>
  messageOf (afterWait WEksAddonUpdateSuccessful sampleArgs
               (AnyUpdate (Some failedUpdateOtherCode)) None).
Proof.
  repeat apply conj; try (vm_compute; reflexivity); vm_compute; discriminate.
Qed.

(** *** A waiter applied to its own result *)

(** C8, amended: for every waiter other than [EksAddonUpdateSuccessful], the
    part that follows the wait, applied to a success outcome, returns that
    outcome unmodified (the snapshot and a nil error; a nil pointer and a nil
    error when a deletion ended with no object), and applied once more to
    what it returned it gives the same result again.
    [EksAddonUpdateSuccessful] is not idempotent: on a Successful update it
    returns a nil pointer instead of the update, and applied to that nil
    pointer it faults. *)
Theorem success_outcome_idempotent :
  (forall (w : Waiter) (a : Args) (outputRaw : any),
      isEksAddonUpdateSuccessful w = false ->
      successOutcome w outputRaw = true ->
      afterWait w a outputRaw None =
        Ret (match outputRaw with AnyNil => nilOf w | _ => outputRaw end) None /\
      reapply w a (afterWait w a outputRaw None) = afterWait w a outputRaw None) /\
  (forall (a : Args) (update : Update),
      StringValue update.(UpdateStatus) = eks.UpdateStatusSuccessful ->
      afterWait WEksAddonUpdateSuccessful a (AnyUpdate (Some update)) None =
        Ret (AnyUpdate None) None /\
      reapply WEksAddonUpdateSuccessful a
        (afterWait WEksAddonUpdateSuccessful a (AnyUpdate (Some update)) None) = Panic).
Proof.
  split.
  - intros w a outputRaw Hw Hs.
    destruct (isDeletedWaiter w) eqn:Hd.
    + unfold successOutcome in Hs. rewrite Hd in Hs.
      destruct w; try discriminate Hd;
        destruct outputRaw as [|p|p|p|p|p|t]; try discriminate Hs;
        split; reflexivity.
    + unfold successOutcome in Hs. rewrite Hd in Hs.
      apply andb_true_iff in Hs as [Hs Hst]. apply andb_true_iff in Hs as [Hty Hnil].
      apply negb_true_iff in Hnil.
      assert (Hsucc : successState w = Some (statusOf outputRaw)).
      { destruct (successState w) as [s|]; [|discriminate Hst].
        apply String.eqb_eq in Hst. now rewrite Hst. }
      pose proof (afterWait_on_success w a outputRaw None Hty Hnil Hsucc) as Hpass.
      rewrite Hw in Hpass.
      assert (Hobj : match outputRaw with AnyNil => nilOf w | _ => outputRaw end = outputRaw)
        by (destruct outputRaw; [discriminate Hnil | reflexivity ..]).
      rewrite Hobj, Hpass. split; [reflexivity | exact Hpass].
  - intros a update Hst.
    cbv [reapply afterWait callWaiter finished EksAddonUpdateSuccessful box].
    rewrite Hst. split; reflexivity.
Qed.

Lemma success_outcome_idempotent_witness :
  (afterWait WEksAddonDeleted sampleArgs AnyNil None = Ret (AnyAddon None) None /\
   reapply WEksAddonDeleted sampleArgs (afterWait WEksAddonDeleted sampleArgs AnyNil None) =
     afterWait WEksAddonDeleted sampleArgs AnyNil None) /\
  (afterWait WClusterUpdateSuccessful sampleArgs (AnyUpdate (Some successfulUpdate)) None =
     Ret (AnyUpdate (Some successfulUpdate)) None /\
   reapply WClusterUpdateSuccessful sampleArgs
     (afterWait WClusterUpdateSuccessful sampleArgs (AnyUpdate (Some successfulUpdate)) None) =
     afterWait WClusterUpdateSuccessful sampleArgs (AnyUpdate (Some successfulUpdate)) None) /\
  (afterWait WEksAddonUpdateSuccessful sampleArgs (AnyUpdate (Some successfulUpdate)) None =
     Ret (AnyUpdate None) None /\
   reapply WEksAddonUpdateSuccessful sampleArgs
     (afterWait WEksAddonUpdateSuccessful sampleArgs (AnyUpdate (Some successfulUpdate)) None)
     = Panic).
Proof.
  repeat apply conj.
  - exact (proj1 (proj1 success_outcome_idempotent WEksAddonDeleted sampleArgs AnyNil
                    eq_refl eq_refl)).
  - exact (proj2 (proj1 success_outcome_idempotent WEksAddonDeleted sampleArgs AnyNil
                    eq_refl eq_refl)).
  - exact (proj1 (proj1 success_outcome_idempotent WClusterUpdateSuccessful sampleArgs
                    (AnyUpdate (Some successfulUpdate)) eq_refl eq_refl)).
  - exact (proj2 (proj1 success_outcome_idempotent WClusterUpdateSuccessful sampleArgs
                    (AnyUpdate (Some successfulUpdate)) eq_refl eq_refl)).
  - exact (proj1 (proj2 success_outcome_idempotent sampleArgs successfulUpdate eq_refl)).
  - exact (proj2 (proj2 success_outcome_idempotent sampleArgs successfulUpdate eq_refl)).
Defined.

(** C8, as stated, fails for [EksAddonUpdateSuccessful]: on the success
    outcome of a Successful update the result is not that outcome but a nil
    pointer, and a second application, to this result, does not give the
    first result again: it faults on the nil pointer. *)
Lemma addon_update_success_is_not_idempotent :
  successState WEksAddonUpdateSuccessful =
    Some (statusOf (AnyUpdate (Some successfulUpdate))) /\
  afterWait WEksAddonUpdateSuccessful sampleArgs (AnyUpdate (Some successfulUpdate)) None =
    Ret (AnyUpdate None) None /\
  AnyUpdate None <> AnyUpdate (Some successfulUpdate) /\
  reapply WEksAddonUpdateSuccessful sampleArgs
    (afterWait WEksAddonUpdateSuccessful sampleArgs (AnyUpdate (Some successfulUpdate)) None)
    = Panic /\
  reapply WEksAddonUpdateSuccessful sampleArgs
    (afterWait WEksAddonUpdateSuccessful sampleArgs (AnyUpdate (Some successfulUpdate)) None)
    <> afterWait WEksAddonUpdateSuccessful sampleArgs (AnyUpdate (Some successfulUpdate)) None.
Proof.
  repeat apply conj; try reflexivity; discriminate.
Qed.

(** ** The engine *)

Lemma poll_pending_step (conf : StateChangeConf) (ctx : Context) (slots k : nat)
  (last : any) (lastState : string) :
  ctx k = false ->
  pendingAnswer conf k = true ->
  poll conf ctx (S slots) k last lastState =
  poll conf ctx slots (S k) (fst (fst (conf.(Refresh) k))) (snd (fst (conf.(Refresh) k))).
Proof.
  intros Hctx Hp. unfold pendingAnswer in Hp. cbn [poll]. rewrite Hctx.
  destruct (Refresh conf k) as [[object state] [e|]]; [discriminate|].
  apply andb_true_iff in Hp as [Ht Hpe]. apply negb_true_iff in Ht.
  rewrite Ht, Hpe. cbn [negb andb orb fst snd].
  rewrite andb_false_r. reflexivity.
Qed.

(** After [n] pending answers the engine is [n] probes further, with [n]
    fewer probes left before the deadline. *)
Lemma poll_pending_run (conf : StateChangeConf) (ctx : Context) (n : nat) :
  forall (slots k : nat) (last : any) (lastState : string),
    (forall j, j < n -> ctx (k + j) = false /\ pendingAnswer conf (k + j) = true) ->
    exists (last' : any) (lastState' : string),
      poll conf ctx (n + slots) k last lastState =
      poll conf ctx slots (k + n) last' lastState'.
Proof.
  induction n as [|n IH]; intros slots k last lastState H.
  - exists last, lastState. now rewrite Nat.add_0_r.
  - destruct (H 0 ltac:(lia)) as [Hc Hp]. rewrite Nat.add_0_r in Hc, Hp.
    cbn [Nat.add]. rewrite (poll_pending_step _ _ _ _ _ _ Hc Hp).
    destruct (IH slots (S k) (fst (fst (Refresh conf k))) (snd (fst (Refresh conf k))))
      as (last' & ls' & E).
    + intros j Hj. specialize (H (S j) ltac:(lia)).
      now replace (S k + j) with (k + S j) by lia.
    + exists last', ls'. rewrite E. f_equal. lia.
Qed.

Lemma poll_probe_error (conf : StateChangeConf) (ctx : Context) (slots k : nat)
  (last : any) (lastState : string) (object : any) (state : string) (e : error) :
  ctx k = false ->
  conf.(Refresh) k = (object, state, Some e) ->
  poll conf ctx (S slots) k last lastState =
  (AnyNil, if isNotFound e && deleteStyle conf then None else Some e, S k).
Proof.
  intros Hctx Hr. cbn [poll]. rewrite Hctx, Hr. unfold deleteStyle.
  destruct (isNotFound e && _); reflexivity.
Qed.

Lemma poll_target (conf : StateChangeConf) (ctx : Context) (slots k : nat)
  (last : any) (lastState : string) (object : any) (state : string) :
  ctx k = false ->
  conf.(Refresh) k = (object, state, None) ->
  inStates state conf.(Target) = true ->
  poll conf ctx (S slots) k last lastState = (object, None, S k).
Proof.
  intros Hctx Hr Ht. cbn [poll]. rewrite Hctx, Hr, Ht. reflexivity.
Qed.

Lemma poll_cancelled (conf : StateChangeConf) (ctx : Context) (slots k : nat)
  (last : any) (lastState : string) :
  ctx k = true ->
  poll conf ctx slots k last lastState = (AnyNil, Some Canceled, k).
Proof.
  intros Hctx. destruct slots; cbn [poll]; now rewrite Hctx.
Qed.

(** [SetLastError] never turns an error into nil. *)
Lemma SetLastError_some (e : error) (lastErr : option error) :
  exists e', SetLastError (Some e) lastErr = Some e'.
Proof.
  destruct e as [c m|s|l|s [le|]|s [le|]|]; cbn [SetLastError]; eexists; reflexivity.
Qed.

(** The engine on a probe that answers not-found after [n] pending answers. *)
Lemma wait_not_found (interval : Duration) (ctx : Context) (conf : StateChangeConf)
  (n : nat) (object : any) (state : string) (e : error) :
  n < pollSlots interval conf.(Timeout) ->
  (forall j, j <= n -> ctx j = false) ->
  (forall j, j < n -> pendingAnswer conf j = true) ->
  conf.(Refresh) n = (object, state, Some e) ->
  isNotFound e = true ->
  wait interval ctx conf = (AnyNil, if deleteStyle conf then None else Some e).
Proof.
  intros Hslots Hctx Hpend Hr Hnf.
  unfold wait, waitProbes.
  remember (pollSlots interval (Timeout conf)) as slots eqn:Es.
  replace slots with (n + S (slots - S n)) by lia.
  destruct (poll_pending_run conf ctx n (S (slots - S n)) 0 AnyNil "") as (l & ls & E).
  { intros j Hj. cbn [Nat.add]. split; [apply Hctx; lia | apply Hpend; exact Hj]. }
  rewrite E. cbn [Nat.add].
  rewrite (poll_probe_error _ _ _ _ _ _ object state e (Hctx n (le_n n)) Hr).
  rewrite Hnf. reflexivity.
Qed.

(** C1: a not-found answer of the probe becomes the success result (nil
    object, nil error) exactly when the target set of the wait is empty.  Run
    on the engine, every waiter whose probe answers not-found, at once or
    after pending answers, returns nil and nil when its target set is empty,
    and nil and the probe's error otherwise.  Besides, whatever the engine,
    [EksAddonDeleted] turns an error with the not-found code into nil and nil,
    and a waiter with a non-empty target set never returns a nil error when
    the engine reports an error. *)
Theorem not_found_is_success_iff_delete_style :
  (forall (interval : Duration) (w : Waiter) (ctx : Context) (conn : EKS) (a : Args)
          (n : nat) (object : any) (state : string) (e : error),
      n < pollSlots interval (Timeout (stateConfOf w ctx conn a)) ->
      (forall j, j <= n -> contextOf w ctx j = false) ->
      (forall j, j < n -> pendingAnswer (stateConfOf w ctx conn a) j = true) ->
      Refresh (stateConfOf w ctx conn a) n = (object, state, Some e) ->
      isNotFound e = true ->
      callWaiter (wait interval) w ctx conn a =
      Ret (nilOf w)
          (if deleteStyle (stateConfOf w ctx conn a) then None else Some e)) /\
  (forall (E : Engine) (ctx : Context) (conn : EKS) (a : Args) (e : error),
      snd (E ctx (stateConfOf WEksAddonDeleted ctx conn a)) = Some e ->
      isNotFound e = true ->
      callWaiter E WEksAddonDeleted ctx conn a = Ret (AnyAddon None) None) /\
  (forall (E : Engine) (w : Waiter) (ctx : Context) (conn : EKS) (a : Args) (e : error),
      deleteStyle (stateConfOf w ctx conn a) = false ->
      snd (E (contextOf w ctx) (stateConfOf w ctx conn a)) = Some e ->
      callWaiter E w ctx conn a = Panic \/
      failed (callWaiter E w ctx conn a) = true).
Proof.
  repeat apply conj.
  - intros interval w ctx conn a n object state e Hs Hc Hp Hr Hnf.
    rewrite callWaiter_afterWait.
    rewrite (wait_not_found interval _ _ n object state e Hs Hc Hp Hr Hnf).
    cbn [fst snd]. destruct w; reflexivity.
  - intros E ctx conn a e He Hnf.
    rewrite callWaiter_afterWait. cbn [contextOf]. rewrite He.
    cbv [afterWait callWaiter finished EksAddonDeleted box]. cbn [snd].
    unfold isNotFound in Hnf. rewrite Hnf. reflexivity.
  - intros E w ctx conn a e Hd He.
    rewrite callWaiter_afterWait, He.
    destruct (fst (E (contextOf w ctx) (stateConfOf w ctx conn a)))
      as [|[c|]|[f|]|[ng|]|[u|]|[ad|]|t];
      destruct w; try discriminate Hd;
      cbv [afterWait callWaiter finished WaitForState ClusterCreated
           FargateProfileCreated NodegroupCreated ClusterUpdateSuccessful
           NodegroupUpdateSuccessful updateOutcome EksAddonCreated
           EksAddonUpdateSuccessful box failed];
      try (right; reflexivity); try (left; reflexivity).
    + destruct (_ || _); [|right; reflexivity].
      destruct (appendUpdateErrors [] (UpdateErrors u)) as [errs|]; [right|left; reflexivity].
      destruct (SetLastError_some e (ErrorOrNil errs)) as [e' ->]. reflexivity.
    + destruct (_ || _); [|right; reflexivity].
      destruct (appendUpdateErrors [] (UpdateErrors u)) as [errs|]; [right|left; reflexivity].
      destruct (SetLastError_some e (ErrorOrNil errs)) as [e' ->]. reflexivity.
    + destruct (String.eqb _ _); [|right; reflexivity].
      destruct (Health ad) as [h|]; [|left; reflexivity].
      destruct (appendAddonIssues [] 0 (Issues h)); [right|left]; reflexivity.
Qed.

Lemma not_found_is_success_iff_delete_style_witness :
  callWaiter (wait Second) WEksAddonDeleted Background deletingService sampleArgs =
    Ret (AnyAddon None) None /\
  callWaiter (wait Second) WClusterDeleted Background goneService sampleArgs =
    Ret (AnyCluster None) None /\
  callWaiter (wait Second) WEksAddonCreated Background goneService sampleArgs =
    Ret (AnyAddon None) (Some notFound) /\
  callWaiter (finished AnyNil (Some notFound)) WEksAddonDeleted Background goneService
             sampleArgs = Ret (AnyAddon None) None /\
  (callWaiter (finished AnyNil (Some notFound)) WEksAddonCreated Background goneService
              sampleArgs = Panic \/
   failed (callWaiter (finished AnyNil (Some notFound)) WEksAddonCreated Background
             goneService sampleArgs) = true).
Proof.
  repeat apply conj.
  - apply (proj1 not_found_is_success_iff_delete_style Second WEksAddonDeleted
             Background deletingService sampleArgs 2 AnyNil "" notFound).
    + apply Nat.ltb_lt. vm_compute. reflexivity.
    + intros j _. reflexivity.
    + intros [|[|j]] Hj; [reflexivity | reflexivity | lia].
    + reflexivity.
    + reflexivity.
  - apply (proj1 not_found_is_success_iff_delete_style Second WClusterDeleted
             Background goneService sampleArgs 0 AnyNil "" notFound).
    + apply Nat.ltb_lt. vm_compute. reflexivity.
    + intros j _. reflexivity.
    + intros j Hj. lia.
    + reflexivity.
    + reflexivity.
  - apply (proj1 not_found_is_success_iff_delete_style Second WEksAddonCreated
             Background goneService sampleArgs 0 AnyNil "" notFound).
    + apply Nat.ltb_lt. vm_compute. reflexivity.
    + intros j _. reflexivity.
    + intros j Hj. lia.
    + reflexivity.
    + reflexivity.
  - exact (proj1 (proj2 not_found_is_success_iff_delete_style)
             (finished AnyNil (Some notFound)) Background goneService sampleArgs notFound
             eq_refl eq_refl).
  - exact (proj2 (proj2 not_found_is_success_iff_delete_style)
             (finished AnyNil (Some notFound)) WEksAddonCreated Background goneService
             sampleArgs notFound eq_refl eq_refl).
Defined.

(** The engine on a probe whose first answer is a target state. *)
Lemma waitProbes_target_first (interval : Duration) (ctx : Context)
  (conf : StateChangeConf) (object : any) (state : string) :
  (0 <= conf.(Timeout))%Z ->
  ctx 0 = false ->
  conf.(Refresh) 0 = (object, state, None) ->
  inStates state conf.(Target) = true ->
  waitProbes interval ctx conf = (object, None, 1).
Proof.
  intros Ht Hctx Hr Hin. unfold waitProbes, pollSlots.
  destruct (Z.ltb_spec (Timeout conf) 0) as [Hneg|_]; [lia|].
  exact (poll_target _ _ _ _ _ _ _ _ Hctx Hr Hin).
Qed.

(** Membership in a literal list of states. *)
Lemma inStates_cons (s x : string) (l : list string) :
  inStates s (x :: l) = true -> s = x \/ inStates s l = true.
Proof.
  unfold inStates. cbn [existsb]. intros H. apply orb_true_iff in H as [H|H].
  - left. now apply String.eqb_eq.
  - right. exact H.
Qed.

(** C3, amended: when the first answer of the probe is a target state, with
    no cancellation and a timeout that is not negative, the engine returns at
    once, after that single probe, with the observed object and a nil error.
    A waiter whose success discriminator is that state then returns the
    object (of the expected type, not nil, with that status) and a nil error,
    except [EksAddonUpdateSuccessful], which returns a nil pointer and a nil
    error.  For the other target states, CREATE_FAILED of [EksAddonCreated]
    and Cancelled and Failed of [EksAddonUpdateSuccessful], the waiter
    returns the object with a non-nil error when no pointer nested in the
    object is nil, and faults when one is. *)
Theorem target_on_first_probe :
  (forall (interval : Duration) (ctx : Context) (conf : StateChangeConf)
          (object : any) (state : string),
      (0 <= conf.(Timeout))%Z ->
      ctx 0 = false ->
      conf.(Refresh) 0 = (object, state, None) ->
      inStates state conf.(Target) = true ->
      waitProbes interval ctx conf = (object, None, 1)) /\
  (forall (interval : Duration) (w : Waiter) (ctx : Context) (conn : EKS) (a : Args)
          (object : any),
      (0 <= Timeout (stateConfOf w ctx conn a))%Z ->
      contextOf w ctx 0 = false ->
      Refresh (stateConfOf w ctx conn a) 0 = (object, statusOf object, None) ->
      inStates (statusOf object) (Target (stateConfOf w ctx conn a)) = true ->
      hasTypeOf w object = true ->
      isNil object = false ->
      (successState w = Some (statusOf object) ->
       callWaiter (wait interval) w ctx conn a =
       Ret (if isEksAddonUpdateSuccessful w then AnyUpdate None else object) None) /\
      (successState w <> Some (statusOf object) ->
       (w = WEksAddonCreated \/ w = WEksAddonUpdateSuccessful) /\
       (noNilInside object = true ->
        exists e, callWaiter (wait interval) w ctx conn a = Ret object (Some e)) /\
       (noNilInside object = false ->
        callWaiter (wait interval) w ctx conn a = Panic))).
Proof.
  split; [exact waitProbes_target_first|].
  intros interval w ctx conn a object Ht Hctx Hr Hin Hty Hnil.
  pose proof (waitProbes_target_first interval _ _ _ _ Ht Hctx Hr Hin) as Hw.
  rewrite callWaiter_afterWait. unfold wait. rewrite Hw. cbn [fst snd].
  split.
  - intros Hs. exact (afterWait_on_success w a object None Hty Hnil Hs).
  - intros Hs.
    destruct w; cbn [stateConfOf Target stateConf_ClusterCreated stateConf_ClusterDeleted
                     stateConf_ClusterUpdateSuccessful stateConf_FargateProfileCreated
                     stateConf_FargateProfileDeleted stateConf_NodegroupCreated
                     stateConf_NodegroupDeleted stateConf_NodegroupUpdateSuccessful
                     stateConf_EksAddonCreated stateConf_EksAddonDeleted
                     stateConf_EksAddonUpdateSuccessful] in Hin;
      repeat match goal with
             | H : inStates _ (_ :: _) = true |- _ =>
                 apply inStates_cons in H; destruct H as [H|H]
             | H : inStates _ [] = true |- _ => discriminate H
             end;
      try (exfalso; apply Hs; cbn [successState]; rewrite Hin; reflexivity).
    + split; [left; reflexivity|].
      destruct object as [|[c|]|[f|]|[n|]|[u|]|[ad|]|t];
        try discriminate Hty; try discriminate Hnil.
      cbn [statusOf] in Hin.
      cbv [afterWait callWaiter finished EksAddonCreated box noNilInside]. rewrite Hin.
      cbn [String.eqb Ascii.eqb Bool.eqb eks.AddonStatusCreateFailed].
      destruct (Health ad) as [h|]; [|split; [discriminate | reflexivity]].
      destruct (noNilEntry (Issues h)) eqn:Hn.
      * pose proof (appendAddonIssues_total _ Hn [] 0) as Htot.
        destruct (appendAddonIssues [] 0 (Issues h)); [|contradiction].
        split; [intros _; eexists; reflexivity | discriminate].
      * rewrite (appendAddonIssues_nil_entry _ Hn).
        split; [discriminate | reflexivity].
    + split; [right; reflexivity|].
      destruct object as [|[c|]|[f|]|[n|]|[u|]|[ad|]|t];
        try discriminate Hty; try discriminate Hnil.
      cbn [statusOf] in Hin.
      cbv [afterWait callWaiter finished EksAddonUpdateSuccessful box noNilInside].
      rewrite Hin.
      cbn [String.eqb Ascii.eqb Bool.eqb eks.UpdateStatusCancelled eks.UpdateStatusSuccessful].
      destruct (noNilEntry (UpdateErrors u)) eqn:Hn.
      * pose proof (appendDetailedUpdateErrors_total _ Hn [] 0) as Htot.
        destruct (appendDetailedUpdateErrors [] 0 (UpdateErrors u)); [|contradiction].
        split; [intros _; eexists; reflexivity | discriminate].
      * rewrite (appendDetailedUpdateErrors_nil_entry _ Hn).
        split; [discriminate | reflexivity].
    + split; [right; reflexivity|].
      destruct object as [|[c|]|[f|]|[n|]|[u|]|[ad|]|t];
        try discriminate Hty; try discriminate Hnil.
      cbn [statusOf] in Hin.
      cbv [afterWait callWaiter finished EksAddonUpdateSuccessful box noNilInside].
      rewrite Hin.
      cbn [String.eqb Ascii.eqb Bool.eqb eks.UpdateStatusFailed eks.UpdateStatusSuccessful].
      destruct (noNilEntry (UpdateErrors u)) eqn:Hn.
      * pose proof (appendDetailedUpdateErrors_total _ Hn [] 0) as Htot.
        destruct (appendDetailedUpdateErrors [] 0 (UpdateErrors u)); [|contradiction].
        split; [intros _; eexists; reflexivity | discriminate].
      * rewrite (appendDetailedUpdateErrors_nil_entry _ Hn).
        split; [discriminate | reflexivity].
Qed.

Lemma target_on_first_probe_witness :
  waitProbes Second Background
    (stateConfOf WClusterCreated Background
       (steadyService (AnyCluster (Some activeCluster)) "ACTIVE") sampleArgs) =
    (AnyCluster (Some activeCluster), None, 1) /\
  callWaiter (wait Second) WClusterCreated Background
    (steadyService (AnyCluster (Some activeCluster)) "ACTIVE") sampleArgs =
    Ret (AnyCluster (Some activeCluster)) None /\
  (exists e,
      callWaiter (wait Second) WEksAddonCreated Background
        (steadyService (AnyAddon (Some failedAddon)) "CREATE_FAILED") sampleArgs =
      Ret (AnyAddon (Some failedAddon)) (Some e)) /\
  callWaiter (wait Second) WEksAddonCreated Background
    (steadyService (AnyAddon (Some failedAddonNoHealth)) "CREATE_FAILED") sampleArgs = Panic.
Proof.
  repeat apply conj.
  - apply (proj1 target_on_first_probe Second Background _
             (AnyCluster (Some activeCluster)) "ACTIVE");
      [vm_compute; discriminate | reflexivity ..].
  - apply (proj1 (proj2 target_on_first_probe Second WClusterCreated Background
                    (steadyService (AnyCluster (Some activeCluster)) "ACTIVE") sampleArgs
                    (AnyCluster (Some activeCluster))
                    ltac:(vm_compute; discriminate) eq_refl eq_refl eq_refl eq_refl eq_refl)).
    reflexivity.
  - apply (proj2 (proj2 target_on_first_probe Second WEksAddonCreated Background
                    (steadyService (AnyAddon (Some failedAddon)) "CREATE_FAILED") sampleArgs
                    (AnyAddon (Some failedAddon))
                    ltac:(vm_compute; discriminate) eq_refl eq_refl eq_refl eq_refl eq_refl)).
    + discriminate.
    + reflexivity.
  - apply (proj2 (proj2 target_on_first_probe Second WEksAddonCreated Background
                    (steadyService (AnyAddon (Some failedAddonNoHealth)) "CREATE_FAILED")
                    sampleArgs (AnyAddon (Some failedAddonNoHealth))
                    ltac:(vm_compute; discriminate) eq_refl eq_refl eq_refl eq_refl eq_refl)).
    + discriminate.
    + reflexivity.
Defined.

(** C3, as stated, fails for the two add-on waiters with several target
    states.  CREATE_FAILED is a target state of [EksAddonCreated], and a
    probe that answers it on the first call makes the waiter return an
    error; Successful is a target state of [EksAddonUpdateSuccessful], and
    the waiter then returns a nil pointer instead of the observed update. *)
Lemma addon_waiters_do_not_return_target_object :
  inStates "CREATE_FAILED"
    (Target (stateConfOf WEksAddonCreated Background
               (steadyService (AnyAddon (Some failedAddon)) "CREATE_FAILED") sampleArgs)) = true /\
  callWaiter (wait Second) WEksAddonCreated Background
    (steadyService (AnyAddon (Some failedAddon)) "CREATE_FAILED") sampleArgs =
    Ret (AnyAddon (Some failedAddon))
        (Some (ErrorString (createdMessage "CREATE_FAILED" (entriesFrom 1 twoErrors)))) /\
  inStates "Successful"
    (Target (stateConfOf WEksAddonUpdateSuccessful Background
               (steadyService (AnyUpdate (Some successfulUpdate)) "Successful") sampleArgs)) = true /\
  callWaiter (wait Second) WEksAddonUpdateSuccessful Background
    (steadyService (AnyUpdate (Some successfulUpdate)) "Successful") sampleArgs =
    Ret (AnyUpdate None) None.
Proof.
  repeat apply conj; vm_compute; reflexivity.
Qed.

(** The engine stops at the first check that sees the signal. *)
Lemma waitProbes_cancelled (interval : Duration) (ctx : Context)
  (conf : StateChangeConf) (n : nat) :
  n <= pollSlots interval conf.(Timeout) ->
  (forall j, j < n -> ctx j = false /\ pendingAnswer conf j = true) ->
  ctx n = true ->
  waitProbes interval ctx conf = (AnyNil, Some Canceled, n).
Proof.
  intros Hn Hrun Hc. unfold waitProbes.
  remember (pollSlots interval (Timeout conf)) as slots eqn:Es.
  replace slots with (n + (slots - n)) by lia.
  destruct (poll_pending_run conf ctx n (slots - n) 0 AnyNil "") as (l & ls & E).
  { intros j Hj. cbn [Nat.add]. exact (Hrun j Hj). }
  rewrite E. cbn [Nat.add]. exact (poll_cancelled _ _ _ _ _ _ Hc).
Qed.

(** C6, amended: the three add-on waiters take a context and support
    cooperative cancellation.  The engine checks the signal at the head of
    every iteration, that is at every sleep boundary; when it sees the signal
    after [n] pending answers it stops with the cancellation error, which is
    not a [TimeoutError], having issued [n] probes and no more, and the add-on
    waiter returns that error.  The eight other waiters take no context and
    wait under the background context: a signal given to them changes
    nothing. *)
Theorem cancellation_reaches_addon_waiters :
  (forall (interval : Duration) (ctx : Context) (conf : StateChangeConf) (n : nat),
      n <= pollSlots interval conf.(Timeout) ->
      (forall j, j < n -> ctx j = false /\ pendingAnswer conf j = true) ->
      ctx n = true ->
      waitProbes interval ctx conf = (AnyNil, Some Canceled, n)) /\
  (forall (interval : Duration) (w : Waiter) (ctx : Context) (conn : EKS) (a : Args)
          (n : nat),
      takesContext w = true ->
      n <= pollSlots interval (Timeout (stateConfOf w ctx conn a)) ->
      (forall j, j < n ->
                 ctx j = false /\ pendingAnswer (stateConfOf w ctx conn a) j = true) ->
      ctx n = true ->
      callWaiter (wait interval) w ctx conn a = Ret (nilOf w) (Some Canceled)) /\
  (forall (lastState : string) (lastError : option error),
      Canceled <> TimeoutError lastState lastError) /\
  (forall (E : Engine) (w : Waiter) (ctx : Context) (conn : EKS) (a : Args),
      takesContext w = false ->
      callWaiter E w ctx conn a = callWaiter E w Background conn a).
Proof.
  repeat apply conj.
  - exact waitProbes_cancelled.
  - intros interval w ctx conn a n Hw Hn Hrun Hc.
    rewrite callWaiter_afterWait. unfold wait.
    destruct w; try discriminate Hw; cbn [contextOf];
      rewrite (waitProbes_cancelled interval ctx _ n Hn Hrun Hc); reflexivity.
  - intros lastState lastError. discriminate.
  - intros E w ctx conn a Hw. destruct w; try discriminate Hw; reflexivity.
Qed.

Lemma cancellation_reaches_addon_waiters_witness :
  waitProbes Second (cancelledFrom 3)
    (stateConfOf WEksAddonCreated (cancelledFrom 3) creatingAddonService sampleArgs) =
    (AnyNil, Some Canceled, 3) /\
  callWaiter (wait Second) WEksAddonCreated (cancelledFrom 3) creatingAddonService sampleArgs =
    Ret (AnyAddon None) (Some Canceled) /\
  callWaiter (wait Second) WClusterCreated (cancelledFrom 3) creatingService sampleArgs =
  callWaiter (wait Second) WClusterCreated Background creatingService sampleArgs.
Proof.
  repeat apply conj.
  - apply (proj1 cancellation_reaches_addon_waiters Second (cancelledFrom 3) _ 3).
    + apply Nat.leb_le. vm_compute. reflexivity.
    + intros [|[|[|j]]] Hj; try (split; reflexivity). lia.
    + reflexivity.
  - apply (proj1 (proj2 cancellation_reaches_addon_waiters) Second WEksAddonCreated
             (cancelledFrom 3) creatingAddonService sampleArgs 3 eq_refl).
    + apply Nat.leb_le. vm_compute. reflexivity.
    + intros [|[|[|j]]] Hj; try (split; reflexivity). lia.
    + reflexivity.
  - exact (proj2 (proj2 (proj2 cancellation_reaches_addon_waiters)) (wait Second)
             WClusterCreated (cancelledFrom 3) creatingService sampleArgs eq_refl).
Defined.

(** C6, as stated, fails for [ClusterCreated]: with the signal set from the
    second check on and a cluster that stays in CREATING, the wait is not
    cancelled; it polls until the five minutes are over, 301 probes at one
    second of interval, and ends with a [TimeoutError]. *)
Lemma cluster_created_is_not_cancelled :
  cancelledFrom 1 1 = true /\
  callWaiter (wait Second) WClusterCreated (cancelledFrom 1) creatingService sampleArgs =
    Ret (AnyCluster (Some creatingCluster)) (Some (TimeoutError "CREATING" None)) /\
  snd (waitProbes Second (contextOf WClusterCreated (cancelledFrom 1))
         (stateConfOf WClusterCreated (cancelledFrom 1) creatingService sampleArgs)) = 301.
Proof.
  repeat apply conj; vm_compute; reflexivity.
Qed.

(** ** Further properties of the waiters *)

(** What every waiter does with an object that is not of its type. *)
Lemma afterWait_other_type (w : Waiter) (a : Args) (outputRaw : any)
  (err : option error) :
  hasTypeOf w outputRaw = false ->
  afterWait w a outputRaw err = Ret (nilOf w) (handedOn w err).
Proof.
  intros Hty.
  destruct w; destruct outputRaw as [|p|p|p|p|p|t]; try discriminate Hty;
    cbv [afterWait callWaiter finished WaitForState ClusterCreated ClusterDeleted
         ClusterUpdateSuccessful FargateProfileCreated FargateProfileDeleted
         NodegroupCreated NodegroupDeleted NodegroupUpdateSuccessful updateOutcome
         EksAddonCreated EksAddonDeleted EksAddonUpdateSuccessful box nilOf handedOn
         isNotFound];
    try reflexivity;
    try (destruct err as [e|]; [destruct (ErrCodeEquals e _)|]; reflexivity);
    destruct err; reflexivity.
Qed.



(** X2: no waiter makes up a payload.  The object a waiter returns is either
    a nil pointer or the very object of the engine, and then that object has
    the type the waiter returns. *)
Theorem returned_object_is_the_engines (w : Waiter) (a : Args) (outputRaw : any)
  (err : option error) :
  match afterWait w a outputRaw err with
  | Panic => True
  | Ret object _ =>
      object = nilOf w \/ (object = outputRaw /\ hasTypeOf w outputRaw = true)
  end.
Proof.
  destruct (hasTypeOf w outputRaw) eqn:Hty.
  - destruct w; destruct outputRaw as [|[c|]|[f|]|[n|]|[u|]|[ad|]|t];
      try discriminate Hty;
      cbv [afterWait callWaiter finished WaitForState ClusterCreated ClusterDeleted
           ClusterUpdateSuccessful FargateProfileCreated FargateProfileDeleted
           NodegroupCreated NodegroupDeleted NodegroupUpdateSuccessful updateOutcome
           EksAddonCreated EksAddonDeleted EksAddonUpdateSuccessful box nilOf];
      repeat match goal with
             | |- context [match ?x with _ => _ end] =>
                 match x with
                 | context [match _ with _ => _ end] => fail 1
                 | _ => destruct x
                 end
             end;
      try exact I; try (left; reflexivity); right; split; reflexivity.
  - rewrite (afterWait_other_type w a outputRaw err Hty). left. reflexivity.
Qed.

(** X3: an error reported by the engine is never swallowed: whatever the
    object that comes with it, every waiter returns a non-nil error (or
    faults), the one exception being [EksAddonDeleted] on an error with the
    not-found code. *)
Theorem engine_error_is_never_swallowed (w : Waiter) (a : Args) (outputRaw : any)
  (e : error) :
  handedOn w (Some e) = Some e ->
  afterWait w a outputRaw (Some e) = Panic \/
  failed (afterWait w a outputRaw (Some e)) = true.
Proof.
  intros Hh.
  destruct (hasTypeOf w outputRaw) eqn:Hty.
  - destruct w; destruct outputRaw as [|[c|]|[f|]|[n|]|[u|]|[ad|]|t];
      try discriminate Hty;
      cbv [afterWait callWaiter finished WaitForState ClusterCreated ClusterDeleted
           ClusterUpdateSuccessful FargateProfileCreated FargateProfileDeleted
           NodegroupCreated NodegroupDeleted NodegroupUpdateSuccessful updateOutcome
           EksAddonCreated EksAddonDeleted EksAddonUpdateSuccessful box failed];
      try (right; reflexivity); try (left; reflexivity).
    + destruct (_ || _); [|right; reflexivity].
      destruct (appendUpdateErrors [] (UpdateErrors u)) as [errs|]; [right|left; reflexivity].
      destruct (SetLastError_some e (ErrorOrNil errs)) as [e' ->]. reflexivity.
    + destruct (_ || _); [|right; reflexivity].
      destruct (appendUpdateErrors [] (UpdateErrors u)) as [errs|]; [right|left; reflexivity].
      destruct (SetLastError_some e (ErrorOrNil errs)) as [e' ->]. reflexivity.
    + destruct (String.eqb _ _); [|right; reflexivity].
      destruct (Health ad) as [h|]; [|left; reflexivity].
      destruct (appendAddonIssues [] 0 (Issues h)); [right|left]; reflexivity.
    + right. cbn [handedOn] in Hh. unfold isNotFound in Hh.
      destruct (ErrCodeEquals e _); [discriminate Hh | reflexivity].
    + right. cbn [handedOn] in Hh. unfold isNotFound in Hh.
      destruct (ErrCodeEquals e _); [discriminate Hh | reflexivity].
  - right. rewrite (afterWait_other_type w a outputRaw (Some e) Hty), Hh. reflexivity.
Qed.

Lemma engine_error_is_never_swallowed_witness :
  (afterWait WNodegroupDeleted sampleArgs AnyNil (Some notFound) = Panic \/
   failed (afterWait WNodegroupDeleted sampleArgs AnyNil (Some notFound)) = true) /\
  (afterWait WEksAddonDeleted sampleArgs (AnyAddon (Some deletingAddon)) (Some timedOut)
     = Panic \/
   failed (afterWait WEksAddonDeleted sampleArgs (AnyAddon (Some deletingAddon))
             (Some timedOut)) = true).
Proof.
  split.
  - exact (engine_error_is_never_swallowed WNodegroupDeleted sampleArgs AnyNil notFound
             eq_refl).
  - exact (engine_error_is_never_swallowed WEksAddonDeleted sampleArgs
             (AnyAddon (Some deletingAddon)) timedOut eq_refl).
Defined.

(** X4: when the engine reports no error, only [EksAddonCreated] and
    [EksAddonUpdateSuccessful] can return one.  Each of the nine other
    waiters, whenever it returns, returns a nil error whatever the payload,
    even for a Cancelled or Failed update; the seven that return the payload
    unread always return, and only the two update waiters among the nine can
    fault instead.  [EksAddonCreated] returns an error only for an add-on
    whose status is CREATE_FAILED, and [EksAddonUpdateSuccessful] only for an
    update whose status is not Successful. *)
Theorem errors_are_built_by_addon_waiters_only :
  (forall (w : Waiter) (a : Args) (outputRaw : any),
      buildsErrors w = false ->
      match afterWait w a outputRaw None with
      | Ret _ err => err = None
      | Panic => w = WClusterUpdateSuccessful \/ w = WNodegroupUpdateSuccessful
      end) /\
  (forall (a : Args) (outputRaw : any),
      failed (afterWait WEksAddonCreated a outputRaw None) = true ->
      isNil outputRaw = false /\ statusOf outputRaw = eks.AddonStatusCreateFailed) /\
  (forall (a : Args) (outputRaw : any),
      failed (afterWait WEksAddonUpdateSuccessful a outputRaw None) = true ->
      isNil outputRaw = false /\ statusOf outputRaw <> eks.UpdateStatusSuccessful).
Proof.
  repeat apply conj.
  - intros w a outputRaw Hw.
    destruct w; try discriminate Hw;
      destruct outputRaw as [|[c|]|[f|]|[n|]|[u|]|[ad|]|t];
      cbv [afterWait callWaiter finished WaitForState ClusterCreated ClusterDeleted
           ClusterUpdateSuccessful FargateProfileCreated FargateProfileDeleted
           NodegroupCreated NodegroupDeleted NodegroupUpdateSuccessful updateOutcome
           EksAddonDeleted box SetLastError];
      try reflexivity; try (left; reflexivity); try (right; reflexivity);
      (destruct (_ || _); [|reflexivity]);
      destruct (appendUpdateErrors [] (UpdateErrors u));
      first [reflexivity | left; reflexivity | right; reflexivity].
  - intros a outputRaw.
    destruct outputRaw as [|[c|]|[f|]|[n|]|[u|]|[ad|]|t];
      cbv [afterWait callWaiter finished EksAddonCreated box failed];
      try discriminate.
    cbn [isNil statusOf].
    destruct (String.eqb_spec (StringValue (AddonStatus ad)) eks.AddonStatusCreateFailed)
      as [Heq|Hne]; [intros _; split; [reflexivity | exact Heq] | discriminate].
  - intros a outputRaw.
    destruct outputRaw as [|[c|]|[f|]|[n|]|[u|]|[ad|]|t];
      cbv [afterWait callWaiter finished EksAddonUpdateSuccessful box failed];
      try discriminate.
    cbn [isNil statusOf].
    destruct (String.eqb_spec (StringValue (UpdateStatus u)) eks.UpdateStatusSuccessful)
      as [Heq|Hne]; [discriminate | intros _; split; [reflexivity | exact Hne]].
Qed.

Lemma errors_are_built_by_addon_waiters_only_witness :
  match afterWait WClusterUpdateSuccessful sampleArgs (AnyUpdate (Some failedUpdate)) None with
  | Ret _ err => err = None
  | Panic => WClusterUpdateSuccessful = WClusterUpdateSuccessful \/
             WClusterUpdateSuccessful = WNodegroupUpdateSuccessful
  end /\
  (isNil (AnyAddon (Some failedAddon)) = false /\
   statusOf (AnyAddon (Some failedAddon)) = eks.AddonStatusCreateFailed) /\
  (isNil (AnyUpdate (Some failedUpdate)) = false /\
   statusOf (AnyUpdate (Some failedUpdate)) <> eks.UpdateStatusSuccessful).
Proof.
  repeat apply conj.
  - exact (proj1 errors_are_built_by_addon_waiters_only WClusterUpdateSuccessful
             sampleArgs (AnyUpdate (Some failedUpdate)) eq_refl).
  - exact (proj1 (proj1 (proj2 errors_are_built_by_addon_waiters_only) sampleArgs
                    (AnyAddon (Some failedAddon)) eq_refl)).
  - exact (proj2 (proj1 (proj2 errors_are_built_by_addon_waiters_only) sampleArgs
                    (AnyAddon (Some failedAddon)) eq_refl)).
  - exact (proj1 (proj2 (proj2 errors_are_built_by_addon_waiters_only) sampleArgs
                    (AnyUpdate (Some failedUpdate)) eq_refl)).
  - exact (proj2 (proj2 (proj2 errors_are_built_by_addon_waiters_only) sampleArgs
                    (AnyUpdate (Some failedUpdate)) eq_refl)).
Defined.

(** *** Exactly when a waiter faults *)

(** X5: [EksAddonCreated] faults on an add-on pointer exactly when the
    pointer is nil, or the add-on has status CREATE_FAILED and either its
    [Health] is nil or an entry of its [Issues] is nil; the engine's error
    plays no part. *)
Theorem addon_created_faults_exactly_when (a : Args) (p : option Addon)
  (err : option error) :
  afterWait WEksAddonCreated a (AnyAddon p) err = Panic <->
  match p with
  | None => True
  | Some addon =>
      StringValue addon.(AddonStatus) = eks.AddonStatusCreateFailed /\
      match addon.(Health) with
      | None => True
      | Some health => noNilEntry health.(Issues) = false
      end
  end.
Proof.
  cbv [afterWait callWaiter finished EksAddonCreated box].
  destruct p as [addon|]; [|split; [intros _; exact I | reflexivity]].
  destruct (String.eqb_spec (StringValue (AddonStatus addon)) eks.AddonStatusCreateFailed)
    as [Heq|Hne].
  - destruct (Health addon) as [health|].
    + destruct (noNilEntry (Issues health)) eqn:Hn.
      * pose proof (appendAddonIssues_total _ Hn [] 0) as Ht.
        destruct (appendAddonIssues [] 0 (Issues health)); [|contradiction].
        split; [discriminate | intros [_ H]; discriminate H].
      * rewrite (appendAddonIssues_nil_entry _ Hn).
        split; [intros _; split; [exact Heq | reflexivity] | reflexivity].
    + split; [intros _; split; [exact Heq | exact I] | reflexivity].
  - split; [discriminate | intros [H _]; contradiction].
Qed.

(** X6: [EksAddonUpdateSuccessful] never faults when the engine reports an
    error.  Without one, it faults on an update pointer exactly when the
    pointer is nil, or the status is not Successful and an entry of [Errors]
    is nil. *)
Theorem addon_update_faults_exactly_when (a : Args) (p : option Update)
  (err : option error) :
  afterWait WEksAddonUpdateSuccessful a (AnyUpdate p) err = Panic <->
  err = None /\
  match p with
  | None => True
  | Some update =>
      StringValue update.(UpdateStatus) <> eks.UpdateStatusSuccessful /\
      noNilEntry update.(UpdateErrors) = false
  end.
Proof.
  cbv [afterWait callWaiter finished EksAddonUpdateSuccessful box].
  destruct err as [e|]; [split; [discriminate | intros [H _]; discriminate H]|].
  destruct p as [update|]; [|split; [intros _; split; [reflexivity | exact I] | reflexivity]].
  destruct (String.eqb_spec (StringValue (UpdateStatus update)) eks.UpdateStatusSuccessful)
    as [Heq|Hne].
  - split; [discriminate | intros [_ [H _]]; contradiction].
  - destruct (noNilEntry (UpdateErrors update)) eqn:Hn.
    + pose proof (appendDetailedUpdateErrors_total _ Hn [] 0) as Ht.
      destruct (appendDetailedUpdateErrors [] 0 (UpdateErrors update)); [|contradiction].
      split; [discriminate | intros [_ [_ H]]; discriminate H].
    + rewrite (appendDetailedUpdateErrors_nil_entry _ Hn).
      split; [intros _; repeat split; [exact Hne] | reflexivity].
Qed.

(** X7: [ClusterUpdateSuccessful] and [NodegroupUpdateSuccessful] fault on
    an update pointer exactly when the pointer is nil, or the status is
    Cancelled or Failed and an entry of [Errors] is nil; the engine's error
    plays no part. *)
Theorem update_waiters_fault_exactly_when (w : Waiter) (a : Args) (p : option Update)
  (err : option error) :
  w = WClusterUpdateSuccessful \/ w = WNodegroupUpdateSuccessful ->
  (afterWait w a (AnyUpdate p) err = Panic <->
   match p with
   | None => True
   | Some update =>
       (StringValue update.(UpdateStatus) = eks.UpdateStatusCancelled \/
        StringValue update.(UpdateStatus) = eks.UpdateStatusFailed) /\
       noNilEntry update.(UpdateErrors) = false
   end).
Proof.
  intros Hw.
  assert (H : afterWait w a (AnyUpdate p) err = box AnyUpdate (updateOutcome (AnyUpdate p) err))
    by (destruct Hw; subst w; reflexivity).
  rewrite H. cbv [updateOutcome box].
  destruct p as [update|]; [|split; [intros _; exact I | reflexivity]].
  destruct (String.eqb_spec (StringValue (UpdateStatus update)) eks.UpdateStatusCancelled)
    as [Hc|Hc];
    destruct (String.eqb_spec (StringValue (UpdateStatus update)) eks.UpdateStatusFailed)
      as [Hf|Hf]; cbn [orb];
    try (split; [discriminate | intros [[Hx|Hx] _]; contradiction]);
    (destruct (noNilEntry (UpdateErrors update)) eqn:Hn;
     [ pose proof (appendUpdateErrors_total _ Hn []) as Ht;
       destruct (appendUpdateErrors [] (UpdateErrors update)); [|contradiction];
       split; [discriminate | intros [_ Hx]; discriminate Hx]
     | rewrite (appendUpdateErrors_nil_entry _ Hn);
       split; [intros _; split; [tauto | reflexivity] | reflexivity] ]).
Qed.

Lemma update_waiters_fault_exactly_when_witness :
  afterWait WNodegroupUpdateSuccessful sampleArgs (AnyUpdate (Some failedUpdateNilError))
            (Some timedOut) = Panic <->
  (StringValue failedUpdateNilError.(UpdateStatus) = eks.UpdateStatusCancelled \/
   StringValue failedUpdateNilError.(UpdateStatus) = eks.UpdateStatusFailed) /\
  noNilEntry failedUpdateNilError.(UpdateErrors) = false.
Proof.
  exact (update_waiters_fault_exactly_when WNodegroupUpdateSuccessful sampleArgs
           (Some failedUpdateNilError) (Some timedOut) (or_intror eq_refl)).
Defined.

(** X8: for an add-on whose status is CREATE_FAILED, what [EksAddonCreated]
    returns does not depend on the engine's error: a timeout or any other
    error reported with such an add-on is replaced, not handed on. *)
Theorem addon_created_replaces_engine_error (a : Args) (addon : Addon)
  (err err' : option error) :
  StringValue addon.(AddonStatus) = eks.AddonStatusCreateFailed ->
  afterWait WEksAddonCreated a (AnyAddon (Some addon)) err =
  afterWait WEksAddonCreated a (AnyAddon (Some addon)) err'.
Proof.
  intros Hst. cbv [afterWait callWaiter finished EksAddonCreated box].
  rewrite Hst. reflexivity.
Qed.

Lemma addon_created_replaces_engine_error_witness :
  afterWait WEksAddonCreated sampleArgs (AnyAddon (Some failedAddon)) (Some timedOut) =
  afterWait WEksAddonCreated sampleArgs (AnyAddon (Some failedAddon)) None.
Proof.
  exact (addon_created_replaces_engine_error sampleArgs failedAddon (Some timedOut) None
           eq_refl).
Defined.

(** X9: [EksAddonUpdateSuccessful] returns an update only together with an
    error of its own making: whenever it returns, either the pointer is nil,
    or the engine had reported no error, the object is the engine's and the
    returned error is not nil.  With an engine error it returns nil and that
    error, whatever the object. *)
Theorem addon_update_object_comes_with_error :
  (forall (a : Args) (outputRaw : any) (e : error),
      afterWait WEksAddonUpdateSuccessful a outputRaw (Some e) =
      Ret (AnyUpdate None) (Some e)) /\
  (forall (a : Args) (outputRaw : any) (err : option error),
      match afterWait WEksAddonUpdateSuccessful a outputRaw err with
      | Panic => True
      | Ret object err' =>
          (object = AnyUpdate None /\ err' = err) \/
          (object = outputRaw /\ err = None /\ err' <> None)
      end).
Proof.
  split.
  - intros a outputRaw e. reflexivity.
  - intros a outputRaw err.
    cbv [afterWait callWaiter finished EksAddonUpdateSuccessful box].
    destruct err as [e|]; [left; split; reflexivity|].
    destruct outputRaw as [|[c|]|[f|]|[n|]|[u|]|[ad|]|t];
      try (left; split; reflexivity); try exact I.
    destruct (String.eqb _ _); [left; split; reflexivity|].
    destruct (appendDetailedUpdateErrors [] 0 (UpdateErrors u)); [|exact I].
    right. repeat split. discriminate.
Qed.

(** X10: the configurations are well formed.  For every waiter the pending
    list is not empty and neither list names a state twice; the target list
    is empty exactly for the four waiters of a deletion; the success state of
    a creation waiter is a pending state of the matching deletion waiter, so
    that a deletion started on an active resource keeps polling; but
    CREATE_FAILED, the other target state of [EksAddonCreated], is not a
    pending state of [EksAddonDeleted]. *)
Theorem configurations_are_well_formed :
  (forall (w : Waiter) (ctx : Context) (conn : EKS) (a : Args),
      Pending (stateConfOf w ctx conn a) <> [] /\
      NoDup (Pending (stateConfOf w ctx conn a)) /\
      NoDup (Target (stateConfOf w ctx conn a)) /\
      (Target (stateConfOf w ctx conn a) = [] <-> isDeletedWaiter w = true)) /\
  (forall (w d : Waiter) (ctx : Context) (conn : EKS) (a : Args) (s : string),
      deletedFor w = Some d ->
      successState w = Some s ->
      In s (Target (stateConfOf w ctx conn a)) /\
      In s (Pending (stateConfOf d ctx conn a))) /\
  (forall (ctx : Context) (conn : EKS) (a : Args),
      In eks.AddonStatusCreateFailed (Target (stateConfOf WEksAddonCreated ctx conn a)) /\
      ~ In eks.AddonStatusCreateFailed
           (Pending (stateConfOf WEksAddonDeleted ctx conn a))).
Proof.
  repeat apply conj.
  - intros w ctx conn a.
    destruct w; cbn; repeat apply conj; try discriminate;
      try (repeat constructor; cbn; intuition discriminate);
      try (split; [reflexivity | discriminate]);
      split; discriminate.
  - intros w d ctx conn a s Hd Hs.
    destruct w; try discriminate Hd; injection Hd as <-; injection Hs as <-;
      cbn; auto.
  - intros ctx conn a. cbn. split; [auto | intuition discriminate].
Qed.

Lemma configurations_are_well_formed_witness :
  In "ACTIVE" (Target (stateConfOf WEksAddonCreated Background noService sampleArgs)) /\
  In "ACTIVE" (Pending (stateConfOf WEksAddonDeleted Background noService sampleArgs)).
Proof.
  exact (proj1 (proj2 configurations_are_well_formed) WEksAddonCreated WEksAddonDeleted
           Background noService sampleArgs "ACTIVE" eq_refl eq_refl).
Defined.


